(** * Admin console of the storefront: image normalisation and product form

    A shallow embedding of [frontend/src/pages/Admin.js]: the handlers of
    the [Admin] component ([optimizeImage], [handleImageChange],
    [handleSubmit], [handleEdit], [handleInputChange], [fetchProducts],
    [handleDelete]) as functions on the component state, together with the
    part of the JavaScript run time they rely on (binary64 numbers,
    truthiness, [parseInt], [parseFloat], [String.prototype.split]). *)

From Stdlib Require Import ZArith List String Ascii Bool Lia DecimalString.
From Stdlib Require Import SpecFloat.
From Stdlib Require Import Reals Lra.
Import ListNotations.

Local Open Scope string_scope.
Local Open Scope Z_scope.

(** ** JavaScript numbers

    A JavaScript Number is an IEEE 754 binary64 value.  [SpecFloat] is the
    specification of binary floating point of the Standard Library; at
    precision 53 and maximal exponent 1024 its operations round to nearest,
    ties to even, which is what JavaScript arithmetic does. *)
Module Num.

Definition number := spec_float.

Definition prec : Z := 53.
Definition emax : Z := 1024.

(** The Number denoted by an integer literal or held by an integer-valued
    DOM attribute. *)
Definition ofZ (z : Z) : number := binary_normalize prec emax z 0 false.

Definition mul (x y : number) : number := SFmul prec emax x y.
Definition div (x y : number) : number := SFdiv prec emax x y.

(** Relational operators; each is [false] as soon as an operand is NaN. *)
Definition lt (x y : number) : bool := SFltb x y.
Definition le (x y : number) : bool := SFleb x y.
Definition gt (x y : number) : bool := SFltb y x.

Definition isNaN (x : number) : bool :=
  match x with S754_nan => true | _ => false end.

(** ToBoolean on a Number: [+0], [-0] and NaN are falsy. *)
Definition truthy (x : number) : bool :=
  match x with
  | S754_zero _ | S754_nan => false
  | _ => true
  end.

(** [x || y] on Numbers. *)
Definition or_else (x y : number) : number := if truthy x then x else y.

(** The Number value of the decimal [m * 10 ^ e10] with sign [neg]
    ([m >= 0]): the nearest binary64 value.  For a negative exponent the
    quotient of the two integers is rounded once, by [SFdiv]. *)
Definition ofDecimal (neg : bool) (m e10 : Z) : number :=
  if m <=? 0 then S754_zero neg
  else if 0 <=? e10 then
    binary_normalize prec emax ((if neg then -1 else 1) * (m * 10 ^ e10)) 0 false
  else
    SFdiv prec emax (S754_finite neg (Z.to_pos m) 0)
                    (S754_finite false (Z.to_pos (10 ^ (- e10))) 0).

(** Conversion to a Web IDL [unsigned long], as done by the setters of
    [canvas.width] and [canvas.height]: NaN, zeros and infinities give 0,
    any other value is truncated toward zero and reduced modulo 2^32. *)
Definition integerPart (x : number) : Z :=
  match x with
  | S754_finite s m e =>
      let a := match e with
               | Zneg p => Z.pos m / 2 ^ Z.pos p
               | _ => Z.pos m * 2 ^ e
               end in
      if s then - a else a
  | _ => 0
  end.

Definition toUnsignedLong (x : number) : Z := integerPart x mod 2 ^ 32.

End Num.

(** ** JavaScript values held by the form, and the built-ins applied to them

    Strings are sequences of code units below 256. *)
Module JS.
Import Num.

Inductive value :=
| VUndefined
| VNull
| VNum (x : number)
| VStr (s : string).

(** ToBoolean. *)
Definition truthy (v : value) : bool :=
  match v with
  | VUndefined | VNull => false
  | VNum x => Num.truthy x
  | VStr s => negb (String.eqb s EmptyString)
  end.

(** [v || w]. *)
Definition or_else (v w : value) : value := if truthy v then v else w.

(** [s.startsWith(p)]. *)
Definition startsWith (s p : string) : bool := String.prefix p s.

(** [s.split(sep)] for a separator of one character. *)
Fixpoint split (sep : ascii) (s : string) : list string :=
  match s with
  | EmptyString => [EmptyString]
  | String c r =>
      if Ascii.eqb c sep then EmptyString :: split sep r
      else match split sep r with
           | h :: t => String c h :: t
           | [] => [String c EmptyString]
           end
  end.

(** [a[i]] on an array of strings: [undefined] out of range. *)
Definition index (a : list string) (i : nat) : value :=
  match nth_error a i with
  | Some s => VStr s
  | None => VUndefined
  end.

(** White space skipped by [parseInt] and [parseFloat]: TAB, LF, VT, FF, CR,
    SP and NBSP. *)
Definition isWhiteSpace (c : ascii) : bool :=
  let n := Z.of_N (N_of_ascii c) in
  ((9 <=? n) && (n <=? 13)) || (n =? 32) || (n =? 160).

Fixpoint trimStart (s : string) : string :=
  match s with
  | String c r => if isWhiteSpace c then trimStart r else s
  | EmptyString => s
  end.

Definition digitValue (c : ascii) : option Z :=
  let n := Z.of_N (N_of_ascii c) in
  if (48 <=? n) && (n <=? 57) then Some (n - 48) else None.

(** The longest prefix of decimal digits, and what follows it. *)
Fixpoint takeDigits (s : string) : list Z * string :=
  match s with
  | String c r =>
      match digitValue c with
      | Some d => let (ds, rest) := takeDigits r in (d :: ds, rest)
      | None => ([], s)
      end
  | EmptyString => ([], s)
  end.

Definition decimalValue (ds : list Z) : Z :=
  fold_left (fun acc d => 10 * acc + d) ds 0.

(** An optional sign: [true] for ["-"]. *)
Definition takeSign (s : string) : bool * string :=
  match s with
  | String "-" r => (true, r)
  | String "+" r => (false, r)
  | _ => (false, s)
  end.

(** [parseInt(s, 10)] on a string. *)
Definition parseIntString (s : string) : number :=
  let (neg, s1) := takeSign (trimStart s) in
  let (ds, _) := takeDigits s1 in
  match ds with
  | [] => S754_nan
  | _ => ofDecimal neg (decimalValue ds) 0
  end.

(** The exponent part [e±ddd] of a decimal literal, 0 when there is none
    or when it is incomplete. *)
Definition takeExponent (s : string) : Z :=
  match s with
  | String c r =>
      if Ascii.eqb c "e" || Ascii.eqb c "E" then
        let (eneg, r1) := takeSign r in
        let (ds, _) := takeDigits r1 in
        match ds with
        | [] => 0
        | _ => if eneg then - decimalValue ds else decimalValue ds
        end
      else 0
  | EmptyString => 0
  end.

(** [parseFloat(s)] on a string: the longest prefix that is a
    StrDecimalLiteral, NaN when there is none. *)
Definition parseFloatString (s : string) : number :=
  let (neg, s1) := takeSign (trimStart s) in
  if String.prefix "Infinity" s1 then S754_infinity neg
  else
    let (ip, s2) := takeDigits s1 in
    let (fp, s3) :=
      match s2 with
      | String "." r => takeDigits r
      | _ => ([], s2)
      end in
    match ip, fp with
    | [], [] => S754_nan
    | _, _ =>
        ofDecimal neg (decimalValue (ip ++ fp))
                  (takeExponent s3 - Z.of_nat (List.length fp))
    end.

(** The base64 alphabet, with its padding character. *)
Definition isBase64Char (c : ascii) : bool :=
  let n := Z.of_N (N_of_ascii c) in
  ((65 <=? n) && (n <=? 90)) || ((97 <=? n) && (n <=? 122))
  || ((48 <=? n) && (n <=? 57)) || (n =? 43) || (n =? 47) || (n =? 61).

Fixpoint isBase64 (s : string) : bool :=
  match s with
  | String c r => isBase64Char c && isBase64 r
  | EmptyString => true
  end.

Section ToString.

(** [Number.prototype.toString] is the engine's; nothing below depends on
    what it prints. *)
Variable numberToString : number -> string.

Definition toString (v : value) : string :=
  match v with
  | VUndefined => "undefined"
  | VNull => "null"
  | VNum x => numberToString x
  | VStr s => s
  end.

(** [parseInt(v, 10)] and [parseFloat(v)]: the argument is converted to a
    string first. *)
Definition parseInt (v : value) : number := parseIntString (toString v).
Definition parseFloat (v : value) : number := parseFloatString (toString v).

End ToString.

End JS.

(** ** [optimizeImage]: the size of the canvas *)
Module Resize.
Import Num.

Definition MAX_WIDTH : number := ofZ 800.
Definition MAX_HEIGHT : number := ofZ 800.

(** The values of [width] and [height] after the two nested conditionals
    of [img.onload], for an image of [imgW] by [imgH] pixels. *)
Definition targetSize (imgW imgH : Z) : number * number :=
  let width := ofZ imgW in
  let height := ofZ imgH in
  if gt width height then
    if gt width MAX_WIDTH then
      let height := mul height (div MAX_WIDTH width) in
      let width := MAX_WIDTH in
      (width, height)
    else (width, height)
  else
    if gt height MAX_HEIGHT then
      let width := mul width (div MAX_HEIGHT height) in
      let height := MAX_HEIGHT in
      (width, height)
    else (width, height).

(** [canvas.width = width; canvas.height = height]. *)
Definition canvasSize (imgW imgH : Z) : Z * Z :=
  let '(width, height) := targetSize imgW imgH in
  (toUnsignedLong width, toUnsignedLong height).

(** The quality argument of [canvas.toDataURL('image/jpeg', 0.8)]. *)
Definition JPEG_QUALITY : number := ofDecimal false 8 (-1).

End Resize.

(** ** The [Admin] component *)
Module Admin.
Import Num JS.

(** A file picked in the [input type="file"] control: [file.type],
    [file.size] (a byte count; only compared with the 5 MiB ceiling) and
    the bytes read by the [FileReader]. *)
Record File := {
  file_type : string;
  file_size : Z;
  file_bytes : string
}.

(** [formData.image], and the [image] member of a request body. *)
Record ImagePayload := {
  data : value;
  contentType : string;
  alt : value
}.

(** A catalogue entry as the backend returns it. *)
Record Product := {
  _id : value;
  product_name : value;
  product_description : value;
  product_price : value;
  product_category : value;
  product_stock : value;
  product_image : option ImagePayload
}.

Record FormData := {
  name : value;
  description : value;
  price : value;
  category : value;
  stock : value;
  image : option ImagePayload
}.

(** [dataToSend], the body of a create or update request. *)
Record ProductData := {
  send_name : value;
  send_description : value;
  send_price : number;
  send_category : value;
  send_stock : number;
  send_image : ImagePayload
}.

(** The state hooks of the component. *)
Record State := {
  products : list Product;
  loading : bool;
  error : option string;
  openDialog : bool;
  editingProduct : option Product;
  formData : FormData
}.

(** What a handler does to the outside, in order: requests made through
    [productService], a call of [fetchProducts] that is not awaited (it runs
    to its end on its own, see [Refreshed] below), the work of
    [optimizeImage], the calls of [setError], and [console.error]. *)
Inductive effect :=
| GetAllProducts
| CreateProduct (d : ProductData)
| UpdateProduct (id : value) (d : ProductData)
| DeleteProduct (id : value)
| FetchProductsCalled
| ReadAndDecode (f : File)
| ToDataURL (width height : Z) (mime : string) (quality : number)
| SetError (m : option string)
| ConsoleError (label : string).

(** The requests a handler makes itself.  [FetchProductsCalled] is not one
    of them: the request of that call, [GetAllProducts], is the first
    effect of the run of [fetchProducts] it starts. *)
Definition isRequest (e : effect) : bool :=
  match e with
  | GetAllProducts | CreateProduct _ | UpdateProduct _ _ | DeleteProduct _ => true
  | _ => false
  end.

Definition isSetError (e : effect) : bool :=
  match e with SetError _ => true | _ => false end.

(** A handler: a state transformer that logs its effects. *)
Definition action := State -> State * list effect.

Definition skip : action := fun st => (st, []).

Definition seq (a b : action) : action :=
  fun st =>
    let (st1, l1) := a st in
    let (st2, l2) := b st1 in
    (st2, (l1 ++ l2)%list).

Notation "a ;; b" := (seq a b) (at level 61, right associativity).

Definition emit (e : effect) : action := fun st => (st, [e]).

Definition setProducts (ps : list Product) : action :=
  fun st => ({| products := ps; loading := loading st; error := error st;
                openDialog := openDialog st;
                editingProduct := editingProduct st;
                formData := formData st |}, []).

Definition setLoading (b : bool) : action :=
  fun st => ({| products := products st; loading := b; error := error st;
                openDialog := openDialog st;
                editingProduct := editingProduct st;
                formData := formData st |}, []).

Definition setError (m : option string) : action :=
  fun st => ({| products := products st; loading := loading st; error := m;
                openDialog := openDialog st;
                editingProduct := editingProduct st;
                formData := formData st |}, [SetError m]).

Definition setOpenDialog (b : bool) : action :=
  fun st => ({| products := products st; loading := loading st;
                error := error st; openDialog := b;
                editingProduct := editingProduct st;
                formData := formData st |}, []).

Definition setEditingProduct (p : option Product) : action :=
  fun st => ({| products := products st; loading := loading st;
                error := error st; openDialog := openDialog st;
                editingProduct := p;
                formData := formData st |}, []).

(** [setFormData(prev => f(prev))]. *)
Definition setFormData (f : FormData -> FormData) : action :=
  fun st => ({| products := products st; loading := loading st;
                error := error st; openDialog := openDialog st;
                editingProduct := editingProduct st;
                formData := f (formData st) |}, []).

(** The initial [formData], also restored when the dialog is closed. *)
Definition emptyForm : FormData :=
  {| name := VStr EmptyString; description := VStr EmptyString; price := VStr EmptyString;
     category := VStr EmptyString; stock := VStr EmptyString; image := None |}.

(** The [formData] set after a successful save. *)
Definition savedForm : FormData :=
  {| name := VStr EmptyString; description := VStr EmptyString; price := VStr EmptyString;
     category := VStr "men"; stock := VStr "0"; image := None |}.

Definition initialState : State :=
  {| products := []; loading := true; error := None; openDialog := false;
     editingProduct := None; formData := emptyForm |}.

(** The named inputs of the form. *)
Inductive field := FName | FDescription | FPrice | FCategory | FStock.

(** [handleInputChange]: [{...prev, [name]: value}]. *)
Definition handleInputChange (f : field) (v : string) : action :=
  setFormData (fun prev =>
    match f with
    | FName =>
        {| name := VStr v; description := description prev;
           price := price prev; category := category prev;
           stock := stock prev; image := image prev |}
    | FDescription =>
        {| name := name prev; description := VStr v;
           price := price prev; category := category prev;
           stock := stock prev; image := image prev |}
    | FPrice =>
        {| name := name prev; description := description prev;
           price := VStr v; category := category prev;
           stock := stock prev; image := image prev |}
    | FCategory =>
        {| name := name prev; description := description prev;
           price := price prev; category := VStr v;
           stock := stock prev; image := image prev |}
    | FStock =>
        {| name := name prev; description := description prev;
           price := price prev; category := category prev;
           stock := VStr v; image := image prev |}
    end).

(** [fetchProducts]: the request, then, once it has settled with [res]
    ([None] when it was rejected), the [try]/[catch]/[finally]. *)
Definition fetchProducts (res : option (list Product)) : action :=
  emit GetAllProducts ;;
  match res with
  | Some data => setProducts data
  | None =>
      setError (Some "Failed to load products") ;;
      emit (ConsoleError "Error fetching products:")
  end ;;
  setLoading false.

Section Browser.

(** What the browser does and the source does not say: how a Number
    prints, whether a file decodes as an image (and then its width and
    height in pixels), and the data URL of a canvas of the given size on
    which the decoded file was drawn, for a MIME type and a quality. *)
Variable numberToString : number -> string.
Variable decode : File -> option (Z * Z).
Variable toDataURL : File -> Z -> Z -> string -> number -> string.

(** [optimizeImage]: the promise settles with the data URL ([Some]) or is
    rejected ([None]) when reading or decoding fails. *)
Definition optimizeImage (file : File) : option string * list effect :=
  match decode file with
  | Some (imgW, imgH) =>
      let '(width, height) := Resize.canvasSize imgW imgH in
      (Some (toDataURL file width height "image/jpeg" Resize.JPEG_QUALITY),
       [ReadAndDecode file;
        ToDataURL width height "image/jpeg" Resize.JPEG_QUALITY])
  | None => (None, [ReadAndDecode file])
  end.

(** [handleImageChange], for [e.target.files[0]] ([None] when no file was
    picked). *)
Definition handleImageChange (picked : option File) : action :=
  match picked with
  | None => skip
  | Some file =>
      if negb (startsWith (file_type file) "image/") then
        setError (Some "Please select an image file")
      else if file_size file >? 5 * 1024 * 1024 then
        setError (Some "Image size should be less than 5MB")
      else
        match optimizeImage file with
        | (Some optimizedDataUrl, log) =>
            let base64Data := index (split "," optimizedDataUrl) 1 in
            (fun st => (st, log)) ;;
            setFormData (fun prev =>
              {| name := name prev; description := description prev;
                 price := price prev; category := category prev;
                 stock := stock prev;
                 image := Some {| data := base64Data;
                                  contentType := "image/jpeg";
                                  alt := or_else (name prev) (VStr EmptyString) |} |}) ;;
            setError None
        | (None, log) =>
            (fun st => (st, log)) ;;
            setError (Some "Error processing the image") ;;
            emit (ConsoleError "Image processing error:")
        end
  end.

(** [formData.image?.data]. *)
Definition imageData (img : option ImagePayload) : value :=
  match img with
  | Some i => data i
  | None => VUndefined
  end.

(** [handleSubmit], run to its end; [saved] tells whether the create or
    update request, if one is made, succeeds.  The two parts of the
    handler around its [await] are [Paths.submitUntilAwait] and
    [Paths.submitAfterAwait] below.  [e.preventDefault()] touches neither
    the state nor the outside and is left out. *)
Definition handleSubmit (saved : bool) : action :=
  fun st =>
  let formData := formData st in
  let editingProduct := editingProduct st in
  (if negb (truthy (name formData)) || negb (truthy (description formData))
      || negb (truthy (price formData)) || negb (truthy (category formData))
   then setError (Some "Please fill in all required fields")
   else if negb (truthy (imageData (image formData))) then
     setError (Some "Please select an image")
   else
     match image formData with
     | None =>
         (* [formData.image.data] on [null] throws inside the [try] *)
         setError (Some "Failed to save product") ;;
         emit (ConsoleError "Error saving product:")
     | Some img =>
         let dataToSend :=
           {| send_name := name formData;
              send_description := description formData;
              send_price :=
                Num.or_else (parseFloat numberToString (price formData)) (ofZ 0);
              send_category := category formData;
              send_stock :=
                Num.or_else (parseInt numberToString (stock formData)) (ofZ 0);
              send_image := {| data := data img;
                               contentType := contentType img;
                               alt := name formData |} |} in
         if isNaN (send_price dataToSend) || le (send_price dataToSend) (ofZ 0)
         then setError (Some "Please enter a valid price")
         else if isNaN (send_stock dataToSend)
                 || lt (send_stock dataToSend) (ofZ 0)
         then setError (Some "Please enter a valid stock quantity")
         else
           match editingProduct with
           | Some p => emit (UpdateProduct (_id p) dataToSend)
           | None => emit (CreateProduct dataToSend)
           end ;;
           if saved then
             setFormData (fun _ => savedForm) ;;
             setError None ;;
             setEditingProduct None ;;
             setOpenDialog false ;;
             emit FetchProductsCalled
           else
             setError (Some "Failed to save product") ;;
             emit (ConsoleError "Error saving product:")
     end) st.

End Browser.

(** [handleDelete]: [confirmed] is the answer to [window.confirm], [deleted]
    tells whether the request succeeds. *)
Definition handleDelete (productId : value) (confirmed deleted : bool) : action :=
  if confirmed then
    emit (DeleteProduct productId) ;;
    if deleted then emit FetchProductsCalled
    else
      setError (Some "Failed to delete product") ;;
      emit (ConsoleError "Error deleting product:")
  else skip.

(** [handleEdit]. *)
Definition handleEdit (product : Product) : action :=
  setEditingProduct (Some product) ;;
  setFormData (fun _ =>
    {| name := product_name product;
       description := product_description product;
       price := product_price product;
       category := product_category product;
       stock := product_stock product;
       image := None |}) ;;
  setOpenDialog true.

(** The [onClose] of the dialog and its Cancel button. *)
Definition closeDialog : action :=
  setOpenDialog false ;;
  setEditingProduct None ;;
  setFormData (fun _ => emptyForm).

(** The "Add New Product" button. *)
Definition openAddDialog : action := setOpenDialog true.

Section Events.

Variable numberToString : number -> string.
Variable decode : File -> option (Z * Z).
Variable toDataURL : File -> Z -> Z -> string -> number -> string.

(** What can happen to the component: each event runs one handler to its
    end; the outcome of the request a handler waits for comes with the
    event.  [Refreshed] is a run of [fetchProducts]: the one of the mount
    effect, or one started by a successful save or delete. *)
Inductive event :=
| InputChanged (f : field) (v : string)
| FilePicked (picked : option File)
| Submitted (saved : bool)
| Refreshed (res : option (list Product))
| DeleteClicked (productId : value) (confirmed deleted : bool)
| EditClicked (product : Product)
| AddClicked
| DialogClosed.

Definition handle (ev : event) : action :=
  match ev with
  | InputChanged f v => handleInputChange f v
  | FilePicked picked => handleImageChange decode toDataURL picked
  | Submitted saved => handleSubmit numberToString saved
  | Refreshed res => fetchProducts res
  | DeleteClicked productId confirmed deleted =>
      handleDelete productId confirmed deleted
  | EditClicked product => handleEdit product
  | AddClicked => openAddDialog
  | DialogClosed => closeDialog
  end.

(** The state after a sequence of events. *)
Definition after (evs : list event) (st : State) : State :=
  fold_left (fun s ev => fst (handle ev s)) evs st.

(** A picked file is accepted when it passes the two checks of
    [handleImageChange] and decodes. *)
Definition accepted (file : File) : bool :=
  startsWith (file_type file) "image/"
  && (file_size file <=? 5242880)
  && match decode file with Some _ => true | None => false end.

(** An event that hands an accepted file to [handleImageChange]. *)
Definition picksAccepted (ev : event) : bool :=
  match ev with
  | FilePicked (Some file) => accepted file
  | _ => false
  end.

End Events.

End Admin.

(** ** What the component renders from its state *)
Module View.
Import Num JS Admin.

Definition DEFAULT_IMAGE : string :=
  "https://via.placeholder.com/400x600/f5f5f5/666666?text=No+Image".

(** [value={formData.<name>}] of a named input. *)
Definition fieldValue (f : field) (fd : FormData) : value :=
  match f with
  | FName => name fd
  | FDescription => description fd
  | FPrice => price fd
  | FCategory => category fd
  | FStock => stock fd
  end.

(** The title of the dialog and the label of its submit button. *)
Definition dialogTitle (st : State) : string :=
  match editingProduct st with
  | Some _ => "Edit Product"
  | None => "Add New Product"
  end.

Definition submitLabel (st : State) : string :=
  match editingProduct st with
  | Some _ => "Update"
  | None => "Add"
  end ++ " Product".

Section Render.

Variable numberToString : number -> string.

(** The [image] attribute of a product card:
    [product.image?.data ? `data:${contentType};base64,${data}` : DEFAULT_IMAGE]. *)
Definition cardImage (product : Product) : string :=
  match product_image product with
  | Some i =>
      if truthy (data i) then
        "data:" ++ contentType i ++ ";base64," ++ toString numberToString (data i)
      else DEFAULT_IMAGE
  | None => DEFAULT_IMAGE
  end.

(** The [alt] attribute of a product card: [product.image?.alt || product.name]. *)
Definition cardAlt (product : Product) : value :=
  or_else (match product_image product with
           | Some i => alt i
           | None => VUndefined
           end)
          (product_name product).

End Render.

End View.

(** ** [handleSubmit] around its [await], and the failure paths *)
Module Paths.
Import Num JS Admin.

(** The first check of [handleSubmit] passes. *)
Definition requiredFilled (fd : FormData) : bool :=
  truthy (name fd) && truthy (description fd)
  && truthy (price fd) && truthy (category fd).

(** A create or an update request. *)
Definition isSave (e : effect) : bool :=
  match e with
  | CreateProduct _ | UpdateProduct _ _ => true
  | _ => false
  end.

(** [handleSubmit] from the answer of the request on: the rest of the
    [try] block when the request succeeded, the [catch] block when it
    failed. *)
Definition submitAfterAwait (saved : bool) : action :=
  if saved then
    setFormData (fun _ => savedForm) ;;
    setError None ;;
    setEditingProduct None ;;
    setOpenDialog false ;;
    emit FetchProductsCalled
  else
    setError (Some "Failed to save product") ;;
    emit (ConsoleError "Error saving product:").

Section Browser.

Variable numberToString : number -> string.
Variable decode : File -> option (Z * Z).

(** [handleSubmit] up to its [await]: the checks and, when all pass, the
    request.  The handler is suspended there until the request is
    answered; other handlers can run in between. *)
Definition submitUntilAwait : action :=
  fun st =>
  let formData := formData st in
  let editingProduct := editingProduct st in
  (if negb (truthy (name formData)) || negb (truthy (description formData))
      || negb (truthy (price formData)) || negb (truthy (category formData))
   then setError (Some "Please fill in all required fields")
   else if negb (truthy (imageData (image formData))) then
     setError (Some "Please select an image")
   else
     match image formData with
     | None =>
         setError (Some "Failed to save product") ;;
         emit (ConsoleError "Error saving product:")
     | Some img =>
         let dataToSend :=
           {| send_name := name formData;
              send_description := description formData;
              send_price :=
                Num.or_else (parseFloat numberToString (price formData)) (ofZ 0);
              send_category := category formData;
              send_stock :=
                Num.or_else (parseInt numberToString (stock formData)) (ofZ 0);
              send_image := {| data := data img;
                               contentType := contentType img;
                               alt := name formData |} |} in
         if isNaN (send_price dataToSend) || le (send_price dataToSend) (ofZ 0)
         then setError (Some "Please enter a valid price")
         else if isNaN (send_stock dataToSend)
                 || lt (send_stock dataToSend) (ofZ 0)
         then setError (Some "Please enter a valid stock quantity")
         else
           match editingProduct with
           | Some p => emit (UpdateProduct (_id p) dataToSend)
           | None => emit (CreateProduct dataToSend)
           end
     end) st.

(** The ways in which an event fails, each with the message of its
    failure: a picked file of the wrong type, too large, or that does not
    decode; a submission with a required field missing, without image
    data, with a price that [parseFloat] reads as NaN or as a Number that
    is not positive, with a stock that [parseInt] reads as a negative
    Number, or whose request fails; a refresh that fails; a confirmed
    delete that fails. *)
Inductive failure : event -> State -> string -> Prop :=
| InvalidFileType file st :
    startsWith (file_type file) "image/" = false ->
    failure (FilePicked (Some file)) st "Please select an image file"
| OversizedFile file st :
    startsWith (file_type file) "image/" = true ->
    5242880 < file_size file ->
    failure (FilePicked (Some file)) st "Image size should be less than 5MB"
| DecodeFailure file st :
    startsWith (file_type file) "image/" = true ->
    file_size file <= 5242880 ->
    decode file = None ->
    failure (FilePicked (Some file)) st "Error processing the image"
| MissingField saved st :
    requiredFilled (formData st) = false ->
    failure (Submitted saved) st "Please fill in all required fields"
| MissingImage saved st :
    requiredFilled (formData st) = true ->
    truthy (imageData (image (formData st))) = false ->
    failure (Submitted saved) st "Please select an image"
| InvalidPrice saved st :
    requiredFilled (formData st) = true ->
    truthy (imageData (image (formData st))) = true ->
    isNaN (parseFloat numberToString (price (formData st))) = true
    \/ le (parseFloat numberToString (price (formData st))) (ofZ 0) = true ->
    failure (Submitted saved) st "Please enter a valid price"
| InvalidStock saved st :
    requiredFilled (formData st) = true ->
    truthy (imageData (image (formData st))) = true ->
    gt (parseFloat numberToString (price (formData st))) (ofZ 0) = true ->
    lt (parseInt numberToString (stock (formData st))) (ofZ 0) = true ->
    failure (Submitted saved) st "Please enter a valid stock quantity"
| SaveFailed st :
    requiredFilled (formData st) = true ->
    truthy (imageData (image (formData st))) = true ->
    gt (parseFloat numberToString (price (formData st))) (ofZ 0) = true ->
    lt (parseInt numberToString (stock (formData st))) (ofZ 0) = false ->
    failure (Submitted false) st "Failed to save product"
| RefreshFailed st :
    failure (Refreshed None) st "Failed to load products"
| DeleteFailed productId st :
    failure (DeleteClicked productId true false) st "Failed to delete product".

End Browser.

End Paths.

(** ** A browser to run the handlers in

    One instance of what the [Browser] sections leave open, and a few files
    and states, for running the handlers on concrete inputs. *)
Module Sample.
Import Num JS Admin.

(** Prints the integer part in decimal: what JavaScript prints for an
    integer-valued Number below 1e21. *)
Definition numberToString (x : number) : string :=
  match x with
  | S754_nan => "NaN"
  | S754_infinity s => if s then "-Infinity" else "Infinity"
  | _ => NilZero.string_of_int (Z.to_int (integerPart x))
  end.

(** A file decodes when its bytes read [<width>x<height>]. *)
Definition decode (file : File) : option (Z * Z) :=
  let (ws, rest) := takeDigits (file_bytes file) in
  match ws, rest with
  | _ :: _, String "x" r =>
      match takeDigits r with
      | ((_ :: _) as hs, EmptyString) => Some (decimalValue ws, decimalValue hs)
      | _ => None
      end
  | _, _ => None
  end.

(** An encoder that answers with the same four base64 characters for
    every canvas that has pixels, and with ["data:,"] for one that has
    none, as the HTML standard prescribes for [toDataURL]. *)
Definition toDataURL (file : File) (width height : Z) (mime : string)
    (quality : number) : string :=
  if (width =? 0) || (height =? 0) then "data:,"
  else "data:" ++ mime ++ ";base64," ++ "/9j/".

Definition photo : File :=
  {| file_type := "image/png"; file_size := 204800; file_bytes := "1600x1200" |}.

Definition square : File :=
  {| file_type := "image/jpeg"; file_size := 5242880; file_bytes := "1078x1078" |}.

Definition tooLarge : File :=
  {| file_type := "image/png"; file_size := 5242881; file_bytes := "1600x1200" |}.

Definition document : File :=
  {| file_type := "application/pdf"; file_size := 1024; file_bytes := "%PDF-1.7" |}.

Definition broken : File :=
  {| file_type := "image/png"; file_size := 1024; file_bytes := "not an image" |}.

Definition shirtImage : ImagePayload :=
  {| data := VStr "/9j/"; contentType := "image/jpeg"; alt := VStr "Shirt" |}.

(** A filled-in form, for a given price and stock. *)
Definition shirtForm (price stock : string) : FormData :=
  {| name := VStr "Shirt"; description := VStr "Cotton shirt";
     price := VStr price; category := VStr "men"; stock := VStr stock;
     image := Some shirtImage |}.

Definition withForm (fd : FormData) : State :=
  {| products := []; loading := false; error := None; openDialog := true;
     editingProduct := None; formData := fd |}.

Definition shirt : Product :=
  {| _id := VStr "p1"; product_name := VStr "Shirt";
     product_description := VStr "Cotton shirt";
     product_price := VNum (ofZ 20); product_category := VStr "men";
     product_stock := VNum (ofZ 3); product_image := Some shirtImage |}.

(** The same product with an empty description. *)
Definition undescribed : Product :=
  {| _id := VStr "p2"; product_name := VStr "Shirt";
     product_description := VStr EmptyString;
     product_price := VNum (ofZ 20); product_category := VStr "men";
     product_stock := VNum (ofZ 3); product_image := Some shirtImage |}.

End Sample.

(** * Facts about Numbers

    [SpecFloat] gives the operations and no lemma about them; what the
    size computation needs is proved here from the definitions: integers
    convert exactly, comparisons agree with those of integers, and a
    product or a quotient is the exact one up to a small relative error. *)
Module NumFacts.
Import Num.


Lemma digits2_pos_size p : digits2_pos p = Pos.size p.
Proof. induction p; simpl; congruence. Qed.

(** [digits2_pos p] is the number of binary digits of [p]. *)
Lemma digits_bounds p :
  2 ^ (Z.pos (digits2_pos p) - 1) <= Z.pos p < 2 ^ Z.pos (digits2_pos p).
Proof.
  rewrite digits2_pos_size. split.
  - pose proof (Pos.size_le p) as H.
    assert (Hp : (2 ^ Z.pos (Pos.size p) <= 2 * Z.pos p)).
    { rewrite <- Pos2Z.inj_pow. change (2 * Z.pos p) with (Z.pos p~0). lia. }
    replace (Z.pos (Pos.size p)) with (Z.succ (Z.pos (Pos.size p) - 1)) in Hp by lia.
    rewrite Z.pow_succ_r in Hp by lia. lia.
  - pose proof (Pos.size_gt p) as H. rewrite <- Pos2Z.inj_pow. lia.
Qed.

Lemma Zdigits2_bounds m : 0 < m ->
  2 ^ (Zdigits2 m - 1) <= m < 2 ^ Zdigits2 m.
Proof. destruct m; try lia. intros _. apply digits_bounds. Qed.

Lemma Zdigits2_pos m : 0 < m -> 0 < Zdigits2 m.
Proof. destruct m; simpl; lia. Qed.

Lemma Zdigits2_unique m k : 0 < m -> 2 ^ (k - 1) <= m < 2 ^ k -> Zdigits2 m = k.
Proof.
  intros Hm [H1 H2]. pose proof (Zdigits2_bounds m Hm) as [H3 H4].
  pose proof (Zdigits2_pos m Hm).
  assert (0 < k).
  { destruct (Z_lt_le_dec 0 k) as [|Hk]; auto.
    destruct (Z.eq_dec k 0) as [->|]; [simpl in H2; lia|].
    rewrite Z.pow_neg_r in H2; lia. }
  destruct (Z_lt_le_dec (Zdigits2 m) k).
  - assert (2 ^ Zdigits2 m <= 2 ^ (k - 1)) by (apply Z.pow_le_mono_r; lia). lia.
  - destruct (Z_lt_le_dec k (Zdigits2 m)); [|lia].
    assert (2 ^ k <= 2 ^ (Zdigits2 m - 1)) by (apply Z.pow_le_mono_r; lia). lia.
Qed.

(** One step of the shift register halves the mantissa. *)
Lemma shr_1_halves mrs : 0 <= shr_m mrs -> shr_m (shr_1 mrs) = shr_m mrs / 2.
Proof.
  destruct mrs as [m r s]. simpl. intros Hm.
  destruct m as [|[p|p|]|]; simpl; try lia; try reflexivity.
  - rewrite Pos2Z.inj_xI. symmetry. rewrite Z.mul_comm, Z.add_comm. 
    rewrite Z.div_add by lia. reflexivity.
  - rewrite Pos2Z.inj_xO. rewrite Z.mul_comm, Z.div_mul by lia. reflexivity.
Qed.

Lemma pow2_xI n : 2 ^ Z.pos n~1 = 2 * 2 ^ Z.pos n * 2 ^ Z.pos n.
Proof.
  rewrite (Pos2Z.inj_xI n).
  replace (2 * Z.pos n + 1) with (1 + Z.pos n + Z.pos n) by lia.
  rewrite Z.pow_add_r by lia. rewrite Z.pow_add_r by lia. reflexivity.
Qed.

Lemma pow2_xO n : 2 ^ Z.pos n~0 = 2 ^ Z.pos n * 2 ^ Z.pos n.
Proof.
  rewrite (Pos2Z.inj_xO n).
  replace (2 * Z.pos n) with (Z.pos n + Z.pos n) by lia.
  rewrite Z.pow_add_r by lia. reflexivity.
Qed.

Lemma iter_shr_1_divides n mrs : 0 <= shr_m mrs ->
  shr_m (SpecFloat.iter_pos shr_1 n mrs) = shr_m mrs / 2 ^ Z.pos n.
Proof.
  revert mrs. induction n as [n IH|n IH|]; intros mrs Hm; simpl SpecFloat.iter_pos.
  - assert (H1 : 0 <= shr_m (shr_1 mrs)).
    { rewrite shr_1_halves by assumption. apply Z.div_pos; lia. }
    assert (H2 : 0 <= shr_m (SpecFloat.iter_pos shr_1 n (shr_1 mrs))).
    { rewrite IH by assumption. apply Z.div_pos; lia. }
    rewrite IH, IH, shr_1_halves by assumption.
    rewrite !Z.div_div by lia. rewrite pow2_xI. f_equal. lia.
  - assert (H2 : 0 <= shr_m (SpecFloat.iter_pos shr_1 n mrs)).
    { rewrite IH by assumption. apply Z.div_pos; lia. }
    rewrite IH, IH by assumption.
    rewrite !Z.div_div by lia. rewrite pow2_xO. reflexivity.
  - rewrite shr_1_halves by assumption. reflexivity.
Qed.

(** [shr] by [n] places divides the mantissa by [2 ^ n] and adds [n] to the
    exponent. *)
Lemma shr_divides mrs e n : 0 <= shr_m mrs ->
  shr_m (fst (shr mrs e n)) = shr_m mrs / 2 ^ Z.max 0 n /\
  snd (shr mrs e n) = e + Z.max 0 n.
Proof.
  intros Hm. destruct n as [|n|n]; simpl.
  - rewrite Z.div_1_r. lia.
  - rewrite iter_shr_1_divides by assumption. split; [reflexivity | lia].
  - rewrite Z.div_1_r. lia.
Qed.

Lemma shr_record_of_loc_m m l : shr_m (shr_record_of_loc m l) = m.
Proof. destruct l as [|[]]; reflexivity. Qed.

Lemma round_nearest_even_bounds m l :
  m <= round_nearest_even m l <= m + 1.
Proof. destruct l as [|[]]; simpl; try lia. destruct (Z.even m); lia. Qed.

(** Above the subnormal range the shift that brings a mantissa of [d]
    digits back to 53 digits is [d - 53]. *)
Lemma fexp_shift d e : -1074 <= e ->
  Z.max 0 (fexp prec emax (d + e) - e) = Z.max 0 (d - 53).
Proof. unfold fexp, SpecFloat.emin, prec, emax. lia. Qed.

Lemma Zdigits2_le m k : 0 < m -> m < 2 ^ k -> Zdigits2 m <= k.
Proof.
  intros Hm Hk. pose proof (Zdigits2_bounds m Hm) as [H1 _].
  destruct (Z_lt_le_dec k (Zdigits2 m)) as [H|H]; [|exact H].
  assert (2 ^ k <= 2 ^ (Zdigits2 m - 1)).
  { destruct (Z_lt_le_dec k 0). rewrite (Z.pow_neg_r 2 k) by lia. apply Z.pow_nonneg; lia.
    apply Z.pow_le_mono_r; lia. }
  lia.
Qed.

Lemma div_pow2_bounds m n : 0 <= n ->
  m / 2 ^ n * 2 ^ n <= m < m / 2 ^ n * 2 ^ n + 2 ^ n.
Proof.
  intros Hn. assert (H : 0 < 2 ^ n) by (apply Z.pow_pos_nonneg; lia).
  pose proof (Z.div_mod m (2 ^ n)) as E.
  pose proof (Z.mod_pos_bound m (2 ^ n) H). lia.
Qed.

(** Rounding [m * 2 ^ e] to 53 bits: the result is finite, its exponent is
    [e + N] and its mantissa, scaled back by [2 ^ N], is within [2 ^ N] of
    [m]; when [m] has at least 53 bits, [2 ^ N] is at most [m / 2 ^ 51]. *)
Lemma round_aux_bounds s p e l :
  -1074 <= e ->
  e + Z.max 0 (Z.pos (digits2_pos p) - 53) + 1 <= 971 ->
  exists c N,
    binary_round_aux prec emax s (Z.pos p) e l = S754_finite s c (e + N) /\
    0 <= N <= Z.max 0 (Z.pos (digits2_pos p) - 53) + 1 /\
    Z.pos p - 2 ^ N < Z.pos c * 2 ^ N <= Z.pos p + 2 ^ N /\
    (2 ^ 52 <= Z.pos p -> 2 ^ (N + 51) <= Z.pos p).
Proof.
  intros He Hov.
  set (m := Z.pos p) in *.
  set (d := Z.pos (digits2_pos p)) in *.
  assert (Hm : 0 < m) by (unfold m; lia).
  pose proof (digits_bounds p) as Hd. fold m d in Hd.
  assert (Hd1 : 1 <= d) by (unfold d; lia).
  unfold binary_round_aux, shr_fexp.
  change (Zdigits2 m) with d.
  set (n1 := Z.max 0 (d - 53)).
  assert (Hn1 : 0 <= n1) by (unfold n1; lia).
  destruct (shr_divides (shr_record_of_loc m l) e (fexp prec emax (d + e) - e)) as [Ha Ee1].
  { rewrite shr_record_of_loc_m. lia. }
  rewrite shr_record_of_loc_m, fexp_shift in Ha by assumption.
  rewrite fexp_shift in Ee1 by assumption. fold n1 in Ha, Ee1.
  destruct (shr (shr_record_of_loc m l) e (fexp prec emax (d + e) - e)) as [mrs1 e1].
  simpl in Ha, Ee1. subst e1.
  set (a := shr_m mrs1) in *.
  pose proof (div_pow2_bounds m n1 Hn1) as Hdiv1. rewrite <- Ha in Hdiv1.
  assert (Hp1 : 0 < 2 ^ n1) by (apply Z.pow_pos_nonneg; lia).
  (* the truncated mantissa has at most 53 digits *)
  assert (Ha53 : 0 < a < 2 ^ 53).
  { split.
    - rewrite Ha. apply Z.div_str_pos. split; [assumption|].
      apply Z.le_trans with (2 ^ (d - 1)); [|lia].
      apply Z.pow_le_mono_r; unfold n1; lia.
    - destruct (Z_lt_le_dec 53 d) as [Hgt|Hle].
      + assert (E : 2 ^ d = 2 ^ 53 * 2 ^ n1).
        { rewrite <- Z.pow_add_r by lia. f_equal. unfold n1. lia. }
        rewrite Ha. apply Z.div_lt_upper_bound; [assumption|]. lia.
      + assert (2 ^ d <= 2 ^ 53) by (apply Z.pow_le_mono_r; lia).
        assert (n1 = 0) by (unfold n1; lia).
        rewrite Ha. replace n1 with 0. rewrite Z.div_1_r. lia. }
  set (b := round_nearest_even a (loc_of_shr_record mrs1)).
  pose proof (round_nearest_even_bounds a (loc_of_shr_record mrs1)) as Hb. fold b in Hb.
  assert (Hb0 : 0 < b) by lia.
  set (db := Zdigits2 b).
  pose proof (Zdigits2_bounds b Hb0) as Hdb. fold db in Hdb.
  pose proof (Zdigits2_pos b Hb0) as Hdb1. fold db in Hdb1.
  assert (Hdb54 : db <= 54).
  { apply Zdigits2_le. assumption. change (2 ^ 54) with (2 * 2 ^ 53). lia. }
  set (n2 := Z.max 0 (db - 53)).
  assert (Hn2 : 0 <= n2 <= 1) by (unfold n2; lia).
  destruct (shr_divides (shr_record_of_loc b loc_Exact) (e + n1) (fexp prec emax (db + (e + n1)) - (e + n1))) as [Hc Ee2].
  { simpl. lia. }
  rewrite fexp_shift in Hc, Ee2 by lia. fold n2 in Hc, Ee2.
  destruct (shr (shr_record_of_loc b loc_Exact) (e + n1) (fexp prec emax (db + (e + n1)) - (e + n1))) as [mrs2 e2].
  simpl in Hc, Ee2. subst e2.
  set (c := shr_m mrs2) in *.
  pose proof (div_pow2_bounds b n2 (proj1 Hn2)) as Hdiv2. rewrite <- Hc in Hdiv2.
  assert (Hp2 : 0 < 2 ^ n2) by (apply Z.pow_pos_nonneg; lia).
  assert (Hc0 : 0 < c).
  { rewrite Hc. apply Z.div_str_pos. split; [assumption|].
    apply Z.le_trans with (2 ^ (db - 1)); [|lia].
    apply Z.pow_le_mono_r; unfold n2; lia. }
  destruct c as [|c'|c'] eqn:Ec; try lia.
  replace (e + n1 + n2 <=? emax - prec) with true
    by (symmetry; apply Z.leb_le; unfold emax, prec; fold d n1 in Hov; lia).
  exists c', (n1 + n2).
  split; [f_equal; lia|].
  split; [unfold n1, d; lia|].
  split.
  - rewrite Z.pow_add_r by lia. nia.
  - intros H52.
    assert (53 <= d).
    { destruct (Z_lt_le_dec d 53) as [Hlt|]; [|assumption].
      assert (2 ^ d <= 2 ^ 52) by (apply Z.pow_le_mono_r; lia). lia. }
    apply Z.le_trans with (2 ^ (d - 1)); [|lia].
    apply Z.pow_le_mono_r; unfold n1; lia.
Qed.

Lemma shr_nonpos mrs e n : n <= 0 -> shr mrs e n = (mrs, e).
Proof. destruct n; simpl; try reflexivity; lia. Qed.

(** A mantissa that fits is left alone. *)
Lemma round_aux_exact s p e :
  fexp prec emax (Z.pos (digits2_pos p) + e) <= e -> e <= 971 ->
  binary_round_aux prec emax s (Z.pos p) e loc_Exact = S754_finite s p e.
Proof.
  intros Hc He. unfold binary_round_aux, shr_fexp.
  change (Zdigits2 (Z.pos p)) with (Z.pos (digits2_pos p)).
  rewrite shr_nonpos by lia.
  cbn [shr_m shr_record_of_loc round_nearest_even loc_of_shr_record Zdigits2].
  rewrite shr_nonpos by lia. cbn [shr_m shr_record_of_loc].
  replace (e <=? emax - prec) with true; [reflexivity|].
  symmetry. apply Z.leb_le. unfold emax, prec. lia.
Qed.

Lemma iter_xO_val q k : Z.pos (Pos.iter xO q k) = Z.pos q * 2 ^ Z.pos k.
Proof.
  induction k as [|k IH] using Pos.peano_ind.
  - simpl. lia.
  - rewrite Pos.iter_succ, Pos2Z.inj_succ, Z.pow_succ_r by lia.
    rewrite (Pos2Z.inj_xO (Pos.iter xO q k)), IH. lia.
Qed.

Lemma iter_xO_digits q k :
  Z.pos (digits2_pos (Pos.iter xO q k)) = Z.pos (digits2_pos q) + Z.pos k.
Proof.
  induction k as [|k IH] using Pos.peano_ind.
  - simpl. lia.
  - rewrite Pos.iter_succ. simpl digits2_pos. lia.
Qed.

(** A positive integer below [2 ^ 53] is a Number: [ofZ] is exact and
    gives a mantissa of 53 bits. *)
Lemma ofZ_pos z : 0 < z < 2 ^ 53 ->
  exists p k, ofZ z = S754_finite false p (- k) /\
    0 <= k <= 52 /\ Z.pos p = z * 2 ^ k /\ 2 ^ 52 <= Z.pos p < 2 ^ 53 /\
    k = 53 - Zdigits2 z.
Proof.
  intros [Hz0 Hz]. destruct z as [|q|q]; try lia.
  pose proof (digits_bounds q) as Hd.
  set (d := Z.pos (digits2_pos q)) in *.
  assert (Hd53 : 1 <= d <= 53).
  { split; [unfold d; lia|].
    destruct (Z_lt_le_dec 53 d) as [H|H]; [|lia].
    assert (2 ^ 53 <= 2 ^ (d - 1)) by (apply Z.pow_le_mono_r; lia). lia. }
  unfold ofZ, binary_normalize, binary_round.
  replace (fexp prec emax (Z.pos (digits2_pos q) + 0)) with (d - 53)
    by (unfold fexp, SpecFloat.emin, prec, emax; fold d; lia).
  unfold shl_align.
  destruct (d - 53 - 0) as [|j|j] eqn:Ej; try lia.
  - exists q, 0. rewrite round_aux_exact.
    + assert (E53 : d = 53) by lia. rewrite E53 in Hd.
      change (53 - 1) with 52 in Hd. simpl Z.opp. simpl Zdigits2. fold d.
      repeat split; lia.
    + fold d. unfold fexp, SpecFloat.emin, prec, emax. lia.
    + lia.
  - exists (Pos.iter xO q j), (Z.pos j).
    assert (Ed : d - 53 = - Z.pos j) by lia. rewrite Ed.
    rewrite round_aux_exact.
    + assert (Hj : 0 < 2 ^ Z.pos j) by (apply Z.pow_pos_nonneg; lia).
      assert (E52 : 2 ^ 52 = 2 ^ (d - 1) * 2 ^ Z.pos j).
      { rewrite <- Z.pow_add_r by lia. f_equal. lia. }
      assert (E53 : 2 ^ 53 = 2 ^ d * 2 ^ Z.pos j).
      { rewrite <- Z.pow_add_r by lia. f_equal. lia. }
      rewrite iter_xO_val, E52, E53. simpl Zdigits2. fold d.
      split; [reflexivity|]. split; [lia|]. split; [reflexivity|].
      split; [nia|lia].
    + rewrite iter_xO_digits. fold d.
      unfold fexp, SpecFloat.emin, prec, emax. lia.
    + lia.
Qed.

Lemma ofZ_0 : ofZ 0 = S754_zero false.
Proof. reflexivity. Qed.

(** On integers below [2 ^ 53] the comparison of Numbers is the comparison
    of integers. *)
Lemma ltb_ofZ a b : 0 <= a < 2 ^ 53 -> 0 <= b < 2 ^ 53 ->
  SFltb (ofZ a) (ofZ b) = (a <? b).
Proof.
  intros Ha Hb.
  destruct (Z.eq_dec a 0) as [->|Ha0]; destruct (Z.eq_dec b 0) as [->|Hb0].
  - reflexivity.
  - destruct (ofZ_pos b) as (p & k & -> & _); [lia|].
    rewrite ofZ_0. unfold SFltb. simpl. symmetry. apply Z.ltb_lt. lia.
  - destruct (ofZ_pos a) as (p & k & -> & _); [lia|].
    rewrite ofZ_0. unfold SFltb. simpl. symmetry. apply Z.ltb_ge. lia.
  - destruct (ofZ_pos a) as (pa & ka & -> & Hka & Epa & Hpa & Eka); [lia|].
    destruct (ofZ_pos b) as (pb & kb & -> & Hkb & Epb & Hpb & Ekb); [lia|].
    unfold SFltb, SFcompare.
    assert (Pa : 0 < a) by lia. assert (Pb : 0 < b) by lia.
    pose proof (Zdigits2_bounds a Pa) as Da.
    pose proof (Zdigits2_bounds b Pb) as Db.
    destruct (Z.compare_spec (- ka) (- kb)) as [E|L|G].
    + assert (Ek : kb = ka) by lia. rewrite Ek in Epb.
      rewrite Pos.compare_cont_spec. simpl.
      assert (0 < 2 ^ ka) by (apply Z.pow_pos_nonneg; lia).
      destruct (Pos.compare_spec pa pb) as [E1|L1|G1]; symmetry.
      * apply Z.ltb_ge. subst pb.
        assert (a = b) by (apply (Z.mul_cancel_r _ _ (2 ^ ka)); lia). lia.
      * apply Z.ltb_lt. apply (Z.mul_lt_mono_pos_r (2 ^ ka)); lia.
      * apply Z.ltb_ge. apply (Z.mul_le_mono_pos_r _ _ (2 ^ ka)); lia.
    + symmetry. apply Z.ltb_lt.
      assert (2 ^ Zdigits2 a <= 2 ^ (Zdigits2 b - 1)) by (apply Z.pow_le_mono_r; lia).
      lia.
    + symmetry. apply Z.ltb_ge.
      assert (2 ^ Zdigits2 b <= 2 ^ (Zdigits2 a - 1)) by (apply Z.pow_le_mono_r; lia).
      lia.
Qed.

Lemma IZR_pow2 n : 0 <= n -> IZR (2 ^ n) = powerRZ 2 n.
Proof.
  intros Hn. rewrite <- (Z2Nat.id n Hn).
  rewrite <- pow_IZR, <- pow_powerRZ. reflexivity.
Qed.

Lemma pow2_pos e : (0 < powerRZ 2 e)%R.
Proof. apply powerRZ_lt. lra. Qed.

Lemma pow2_add a b : powerRZ 2 (a + b) = (powerRZ 2 a * powerRZ 2 b)%R.
Proof. apply powerRZ_add. lra. Qed.

(** Rounding a mantissa of at least 53 bits changes the value by a relative
    error of at most 2^-51. *)
(** The same over the reals: rounding a mantissa of at least 53 bits changes
    the value by a relative error of at most [2 ^ -51]. *)
Lemma round_aux_relative s p e l :
  2 ^ 52 <= Z.pos p -> -1074 <= e ->
  e + Z.max 0 (Z.pos (digits2_pos p) - 53) + 1 <= 971 ->
  exists c e' d,
    binary_round_aux prec emax s (Z.pos p) e l = S754_finite s c e' /\
    (IZR (Z.pos c) * powerRZ 2 e' = IZR (Z.pos p) * powerRZ 2 e * (1 + d))%R /\
    (- / IZR (2 ^ 51) <= d <= / IZR (2 ^ 51))%R /\
    e <= e' <= e + Z.max 0 (Z.pos (digits2_pos p) - 53) + 1 /\
    Z.pos c <= Z.pos p + 1.
Proof.
  intros H52 He Hov.
  destruct (round_aux_bounds s p e l He Hov) as (c & N & E & HN & HC & Hrel).
  specialize (Hrel H52).
  exists c, (e + N), ((IZR (Z.pos c * 2 ^ N) - IZR (Z.pos p)) / IZR (Z.pos p))%R.
  split; [exact E|].
  assert (Hp : (0 < IZR (Z.pos p))%R) by (apply IZR_lt; lia).
  assert (HP : 0 < 2 ^ N) by (apply Z.pow_pos_nonneg; lia).
  split; [|split; [|split; [lia|nia]]].
  - rewrite pow2_add, mult_IZR, IZR_pow2 by lia. field. lra.
  - 
    assert (E51 : 2 ^ (N + 51) = 2 ^ N * 2 ^ 51) by (apply Z.pow_add_r; lia).
    set (C := Z.pos c * 2 ^ N) in *.
    assert (H1 : (IZR C - IZR (Z.pos p) <= IZR (2 ^ N))%R).
    { rewrite <- minus_IZR. apply IZR_le. lia. }
    assert (H2 : (- IZR (2 ^ N) <= IZR C - IZR (Z.pos p))%R).
    { rewrite <- minus_IZR, <- opp_IZR. apply IZR_le. lia. }
    assert (H3 : (IZR (2 ^ N) * IZR (2 ^ 51) <= IZR (Z.pos p))%R).
    { rewrite <- mult_IZR. apply IZR_le. lia. }
    assert (H4 : (0 < IZR (2 ^ 51))%R) by (apply IZR_lt; reflexivity).
    assert (H5 : (0 < IZR (2 ^ N))%R) by (apply IZR_lt; lia).
    set (x := (IZR C - IZR (Z.pos p))%R) in *.
    set (P := IZR (Z.pos p)) in *. set (Q := IZR (2 ^ N)) in *.
    set (K := IZR (2 ^ 51)) in *.
    split.
    + apply Rmult_le_reg_r with (P * K)%R. nra.
      unfold Rdiv. 
      replace (x * / P * (P * K))%R with (x * K)%R by (field; lra).
      replace (- / K * (P * K))%R with (- P)%R by (field; lra). nra.
    + apply Rmult_le_reg_r with (P * K)%R. nra.
      unfold Rdiv. 
      replace (x * / P * (P * K))%R with (x * K)%R by (field; lra).
      replace (/ K * (P * K))%R with P by (field; lra). nra.
Qed.

Lemma digits_53 p : 2 ^ 52 <= Z.pos p < 2 ^ 53 -> Z.pos (digits2_pos p) = 53.
Proof.
  intros H. change (Z.pos (digits2_pos p)) with (Zdigits2 (Z.pos p)).
  apply Zdigits2_unique; [lia|exact H].
Qed.

(** The product of two positive Numbers is the exact product up to a
    relative error of [2 ^ -51]. *)
Lemma mul_relative m1 e1 m2 e2 :
  2 ^ 52 <= Z.pos m1 * Z.pos m2 < 2 ^ 110 ->
  -1074 <= e1 + e2 -> e1 + e2 + 58 <= 971 ->
  exists c e' d,
    SFmul prec emax (S754_finite false m1 e1) (S754_finite false m2 e2)
      = S754_finite false c e' /\
    (IZR (Z.pos c) * powerRZ 2 e'
       = (IZR (Z.pos m1) * powerRZ 2 e1) * (IZR (Z.pos m2) * powerRZ 2 e2) * (1 + d))%R /\
    (- / IZR (2 ^ 51) <= d <= / IZR (2 ^ 51))%R.
Proof.
  intros Hm He Hov. unfold SFmul. simpl xorb.
  assert (Hd : Z.pos (digits2_pos (m1 * m2)) <= 110).
  { change (Z.pos (digits2_pos (m1 * m2))) with (Zdigits2 (Z.pos (m1 * m2))).
    apply Zdigits2_le; lia. }
  destruct (round_aux_relative false (m1 * m2) (e1 + e2) loc_Exact) as (c & e' & d & E & V & D & _);
    try lia.
  exists c, e', d. split; [exact E|]. split; [|exact D].
  rewrite V, Pos2Z.inj_mul, mult_IZR, pow2_add. ring.
Qed.

(** The quotient of two positive normal Numbers is the exact quotient up to
    a relative error of [2 ^ -50]: truncating the integer quotient costs at
    most [2 ^ -52], rounding it at most [2 ^ -51]. *)
Lemma div_relative m1 e1 m2 e2 :
  2 ^ 52 <= Z.pos m1 < 2 ^ 53 -> 2 ^ 52 <= Z.pos m2 < 2 ^ 53 ->
  -1074 <= e1 - e2 - 53 -> e1 - e2 <= 1000 ->
  exists c e' d,
    SFdiv prec emax (S754_finite false m1 e1) (S754_finite false m2 e2)
      = S754_finite false c e' /\
    (IZR (Z.pos c) * powerRZ 2 e'
       = (IZR (Z.pos m1) * powerRZ 2 e1) / (IZR (Z.pos m2) * powerRZ 2 e2) * (1 + d))%R /\
    (- / IZR (2 ^ 50) <= d <= / IZR (2 ^ 50))%R /\
    e1 - e2 - 53 <= e' <= e1 - e2 - 51 /\ Z.pos c <= 2 ^ 54.
Proof.
  intros H1 H2 He Hov. unfold SFdiv, SFdiv_core_binary.
  cbn [Zdigits2]. rewrite (digits_53 m1 H1), (digits_53 m2 H2).
  replace (Z.min (fexp prec emax (53 + e1 - (53 + e2))) (e1 - e2)) with (e1 - e2 - 53)
    by (unfold fexp, SpecFloat.emin, prec, emax; lia).
  replace (e1 - e2 - (e1 - e2 - 53)) with 53 by lia.
  cbv beta iota zeta.
  rewrite Z.shiftl_mul_pow2 by lia.
  pose proof (Z_div_mod (Z.pos m1 * 2 ^ 53) (Z.pos m2) eq_refl) as Hqr.
  destruct (Z.div_eucl (Z.pos m1 * 2 ^ 53) (Z.pos m2)) as [q r].
  destruct Hqr as [Eqr Hr].
  assert (Hq : 2 ^ 52 <= q < 2 ^ 54).
  { change (2 ^ 53) with (2 * 2 ^ 52) in *. change (2 ^ 54) with (4 * 2 ^ 52).
    assert (Ha : 0 < 2 ^ 52) by reflexivity.
    generalize dependent (2 ^ 52). intros a. intros. split.
    - destruct (Z_lt_le_dec q a) as [Hlt|]; [exfalso|assumption].
      assert (Z.pos m2 * (q + 1) <= Z.pos m2 * a) by (apply Z.mul_le_mono_nonneg_l; lia).
      assert (a * (2 * a) <= Z.pos m1 * (2 * a)) by (apply Z.mul_le_mono_nonneg_r; lia).
      assert (Z.pos m2 * a < (2 * a) * a) by (apply Z.mul_lt_mono_pos_r; lia).
      lia.
    - destruct (Z_lt_le_dec q (4 * a)) as [|Hge]; [assumption|exfalso].
      assert (Z.pos m2 * (4 * a) <= Z.pos m2 * q) by (apply Z.mul_le_mono_nonneg_l; lia).
      assert (a * (4 * a) <= Z.pos m2 * (4 * a)) by (apply Z.mul_le_mono_nonneg_r; lia).
      assert (Z.pos m1 * (2 * a) < (2 * a) * (2 * a)) by (apply Z.mul_lt_mono_pos_r; lia).
      lia. }
  destruct q as [|pq|pq]; try lia.
  assert (Hdq : Z.pos (digits2_pos pq) <= 54).
  { change (Z.pos (digits2_pos pq)) with (Zdigits2 (Z.pos pq)).
    apply Zdigits2_le; lia. }
  destruct (round_aux_relative false pq (e1 - e2 - 53) (new_location (Z.pos m2) r))
    as (c & e' & da & E & V & D & He' & Hc); try lia.
  simpl xorb. rewrite E.
  assert (P1 : (0 < IZR (Z.pos m1))%R) by (apply IZR_lt; lia).
  assert (P2 : (0 < IZR (Z.pos m2))%R) by (apply IZR_lt; lia).
  assert (P53 : (0 < IZR (2 ^ 53))%R) by (apply IZR_lt; reflexivity).
  set (db := (- IZR r / (IZR (Z.pos m1) * IZR (2 ^ 53)))%R).
  exists c, e', (da + db + da * db)%R.
  split; [reflexivity|]. split; [|split; [|lia]].
  - rewrite V.
    assert (Eq : (IZR (Z.pos pq) = IZR (Z.pos m1) * IZR (2 ^ 53) / IZR (Z.pos m2) * (1 + db))%R).
    { unfold db. 
      assert (Eq' : (IZR (Z.pos m1) * IZR (2 ^ 53) = IZR (Z.pos m2) * IZR (Z.pos pq) + IZR r)%R).
      { rewrite <- !mult_IZR, <- plus_IZR. f_equal. exact Eqr. }
      assert (Er : (IZR r = IZR (Z.pos m1) * IZR (2 ^ 53) - IZR (Z.pos m2) * IZR (Z.pos pq))%R) by lra.
      rewrite Er. field. lra. }
    rewrite Eq.
    replace (e1 - e2 - 53) with (e1 + Z.opp e2 + Z.opp 53) by lia.
    rewrite !pow2_add. rewrite (powerRZ_neg' 2 e2), (powerRZ_neg' 2 53).
    rewrite <- (IZR_pow2 53) by lia.
    pose proof (pow2_pos e2). field. lra.
  - assert (Hdb : (- / IZR (2 ^ 52) <= db <= / IZR (2 ^ 52))%R).
    { unfold db.
      assert (R0 : (0 <= IZR r)%R) by (apply IZR_le; lia).
      assert (R1 : (IZR r <= IZR (2 ^ 53))%R) by (apply IZR_le; lia).
      assert (R2 : (IZR (2 ^ 52) <= IZR (Z.pos m1))%R) by (apply IZR_le; lia).
      assert (P52 : (0 < IZR (2 ^ 52))%R) by (apply IZR_lt; reflexivity).
      set (X := IZR (Z.pos m1)) in *. set (K := IZR (2 ^ 53)) in *.
      set (L := IZR (2 ^ 52)) in *. set (rr := IZR r) in *.
      assert (PX : (0 < X * K)%R) by nra.
      split.
      + apply Rmult_le_reg_r with (X * K * L)%R. nra.
        replace (- / L * (X * K * L))%R with (- (X * K))%R by (field; lra).
        replace (- rr / (X * K) * (X * K * L))%R with (- rr * L)%R by (field; lra).
        nra.
      + assert (I1 : (0 < / (X * K))%R) by (apply Rinv_0_lt_compat; lra).
        assert (I2 : (0 < / L)%R) by (apply Rinv_0_lt_compat; lra).
        unfold Rdiv. nra. }
    change (IZR (2 ^ 51)) with 2251799813685248%R in D.
    change (IZR (2 ^ 52)) with 4503599627370496%R in Hdb.
    change (IZR (2 ^ 50)) with 1125899906842624%R.
    split; nra.
Qed.

Lemma ofZ_val z : 0 < z < 2 ^ 53 ->
  exists p k, ofZ z = S754_finite false p (- k) /\
    0 <= k <= 52 /\ 2 ^ 52 <= Z.pos p < 2 ^ 53 /\
    (IZR (Z.pos p) * powerRZ 2 (- k) = IZR z)%R.
Proof.
  intros Hz. destruct (ofZ_pos z Hz) as (p & k & E & Hk & Ep & Hp & _).
  exists p, k. repeat split; try assumption; try lia.
  rewrite Ep, mult_IZR, IZR_pow2, powerRZ_neg' by lia.
  pose proof (pow2_pos k). field. lra.
Qed.

(** The integer part of a positive Number is the floor of its value. *)
Lemma integerPart_R m e :
  0 <= integerPart (S754_finite false m e) /\
  (IZR (integerPart (S754_finite false m e)) <= IZR (Z.pos m) * powerRZ 2 e
     < IZR (integerPart (S754_finite false m e)) + 1)%R.
Proof.
  unfold integerPart. destruct e as [|e|e].
  - change (2 ^ 0) with 1. rewrite Z.mul_1_r. simpl powerRZ. split; [lia|lra].
  - split; [apply Z.mul_nonneg_nonneg; [lia|apply Z.pow_nonneg; lia]|].
    rewrite mult_IZR, IZR_pow2 by lia. lra.
  - pose proof (div_pow2_bounds (Z.pos m) (Z.pos e)) as Hd.
    assert (HP : 0 < 2 ^ Z.pos e) by (apply Z.pow_pos_nonneg; lia).
    set (T := Z.pos m / 2 ^ Z.pos e) in *.
    split; [apply Z.div_pos; lia|].
    change (Z.neg e) with (- Z.pos e). rewrite powerRZ_neg', <- IZR_pow2 by lia.
    assert (HPr : (0 < IZR (2 ^ Z.pos e))%R) by (apply IZR_lt; lia).
    assert (H1 : (IZR T * IZR (2 ^ Z.pos e) <= IZR (Z.pos m))%R).
    { rewrite <- mult_IZR. apply IZR_le. lia. }
    assert (H2 : (IZR (Z.pos m) < (IZR T + 1) * IZR (2 ^ Z.pos e))%R).
    { rewrite <- (plus_IZR T 1), <- mult_IZR. apply IZR_lt. lia. }
    set (P := IZR (2 ^ Z.pos e)) in *.
    split.
    + apply Rmult_le_reg_r with P; [assumption|].
      replace (IZR (Z.pos m) * / P * P)%R with (IZR (Z.pos m)) by (field; lra). lra.
    + apply Rmult_lt_reg_r with P; [assumption|].
      replace (IZR (Z.pos m) * / P * P)%R with (IZR (Z.pos m)) by (field; lra). lra.
Qed.

(** The scaled side: [A * (800 / B)] computed on Numbers and truncated is
    at most the exact quotient [800 * A / B] and misses it by at most one. *)
Lemma scaled_side A B : 800 < B < 2 ^ 32 -> 0 <= A <= B ->
  let T := toUnsignedLong (mul (ofZ A) (div (ofZ 800) (ofZ B))) in
  0 <= T <= 800 /\ T * B <= 800 * A <= (T + 1) * B.
Proof.
  intros HB HA. unfold mul, div.
  destruct (ofZ_val 800) as (p8 & k8 & E8 & Hk8 & Hp8 & V8); [lia|].
  destruct (ofZ_val B) as (pb & kb & Eb & Hkb & Hpb & Vb); [lia|].
  destruct (div_relative p8 (- k8) pb (- kb) Hp8 Hpb) as
    (cr & er & d1 & Er & Vr & D1 & Her & Hcr); [lia|lia|].
  rewrite E8, Eb, Er.
  destruct (Z.eq_dec A 0) as [->|HA0].
  - rewrite ofZ_0. cbv zeta. unfold SFmul, toUnsignedLong, integerPart.
    change (0 mod 2 ^ 32) with 0. lia.
  - destruct (ofZ_val A) as (pa & ka & Ea & Hka & Hpa & Va); [lia|].
    rewrite Ea.
    destruct (mul_relative pa (- ka) cr er) as (cf & ef & d2 & Ef & Vf & D2).
    { split.
      - apply Z.le_trans with (Z.pos pa * 1); [lia|].
        apply Z.mul_le_mono_nonneg_l; lia.
      - change (2 ^ 110) with (2 ^ 53 * 2 ^ 57).
        apply Z.mul_lt_mono_nonneg; lia. }
    { lia. } { lia. }
    rewrite Ef. cbv zeta. unfold toUnsignedLong.
    destruct (integerPart_R cf ef) as [HT0 HT].
    set (T := integerPart (S754_finite false cf ef)) in *.
    rewrite Vf, Va, Vr, V8, Vb in HT.
    assert (Ra : (0 < IZR A <= IZR B)%R) by (split; [apply IZR_lt|apply IZR_le]; lia).
    assert (Rb : (800 < IZR B < 4294967296)%R) by (split; apply IZR_lt; lia).
    change (IZR (2 ^ 50)) with 1125899906842624%R in D1.
    change (IZR (2 ^ 51)) with 2251799813685248%R in D2.
    set (a := IZR A) in *. set (b := IZR B) in *.
    set (t := (d1 + d2 + d1 * d2)%R).
    assert (Ht : (- / 281474976710656 <= t <= / 281474976710656)%R).
    { unfold t. split; nra. }
    assert (Hv : (a * (800 / b * (1 + d1)) * (1 + d2) * b = 800 * a + 800 * a * t)%R).
    { unfold t. field. lra. }
    assert (Hat : (-1 < 800 * a * t < 1)%R).
    { split; nra. }
    assert (L1 : T * B <= 800 * A).
    { apply Z.lt_succ_r. apply lt_IZR. unfold Z.succ.
      rewrite plus_IZR, !mult_IZR. fold a b.
      apply Rle_lt_trans with (a * (800 / b * (1 + d1)) * (1 + d2) * b)%R; [|lra].
      apply Rmult_le_compat_r; lra. }
    assert (L2 : 800 * A <= (T + 1) * B).
    { apply Z.lt_succ_r. apply lt_IZR. unfold Z.succ.
      rewrite plus_IZR, !mult_IZR, plus_IZR. fold a b.
      apply Rlt_trans with (a * (800 / b * (1 + d1)) * (1 + d2) * b + 1)%R; [lra|].
      assert ((a * (800 / b * (1 + d1)) * (1 + d2) * b < (IZR T + 1) * b)%R).
      { apply Rmult_lt_compat_r; lra. }
      lra. }
    assert (HT800 : T <= 800) by nia.
    rewrite Z.mod_small by lia. lia.
Qed.

End NumFacts.

(** * The size of the canvas *)
Module ResizeFacts.
Import Num NumFacts Resize.

Lemma gt_ofZ a b : 0 <= a < 2 ^ 32 -> 0 <= b < 2 ^ 32 ->
  gt (ofZ a) (ofZ b) = (b <? a).
Proof. intros Ha Hb. unfold gt. apply ltb_ofZ; lia. Qed.

(** An image dimension survives the trip through a Number and back. *)
Lemma toUnsignedLong_ofZ z : 0 <= z < 2 ^ 32 -> toUnsignedLong (ofZ z) = z.
Proof.
  intros Hz. destruct (Z.eq_dec z 0) as [->|Hz0]; [reflexivity|].
  destruct (ofZ_pos z) as (p & k & E & Hk & Ep & _); [lia|].
  rewrite E. unfold toUnsignedLong, integerPart.
  assert (Hv : match - k with
               | Z.neg q => Z.pos p / 2 ^ Z.pos q
               | _ => Z.pos p * 2 ^ (- k)
               end = z).
  { destruct k as [|k|k]; try lia.
    - simpl Z.opp. cbv iota. change (2 ^ 0) with 1 in *. lia.
    - simpl Z.opp. cbv iota. rewrite Ep. apply Z.div_mul.
      apply Z.pow_nonzero; lia. }
  rewrite Hv. apply Z.mod_small. lia.
Qed.

(** [canvasSize] by cases on the integers. *)
Lemma canvasSize_cases w h : 0 <= w < 2 ^ 32 -> 0 <= h < 2 ^ 32 ->
  canvasSize w h =
    if h <? w then
      if 800 <? w
      then (800, toUnsignedLong (mul (ofZ h) (div (ofZ 800) (ofZ w))))
      else (w, h)
    else
      if 800 <? h
      then (toUnsignedLong (mul (ofZ w) (div (ofZ 800) (ofZ h))), 800)
      else (w, h).
Proof.
  intros Hw Hh. unfold canvasSize, targetSize, MAX_WIDTH, MAX_HEIGHT.
  rewrite !gt_ofZ by lia.
  destruct (h <? w); [destruct (800 <? w)|destruct (800 <? h)];
    rewrite ?toUnsignedLong_ofZ by lia; reflexivity.
Qed.

(** Both sides of the canvas are at most 800; the side the code tests
    first is the minimum of its length and 800, and the other one is the
    proportional length rounded down, or one less. *)
Lemma canvasSize_spec w h : 0 <= w < 2 ^ 32 -> 0 <= h < 2 ^ 32 ->
  let '(cw, ch) := canvasSize w h in
  0 <= cw <= 800 /\ 0 <= ch <= 800 /\
  (h < w -> cw = Z.min w 800 /\ ch * w <= cw * h <= (ch + 1) * w) /\
  (w <= h -> ch = Z.min h 800 /\ cw * h <= ch * w <= (cw + 1) * h).
Proof.
  intros Hw Hh. rewrite canvasSize_cases by assumption.
  destruct (Z.ltb_spec h w) as [L|L].
  - destruct (Z.ltb_spec 800 w) as [B|B].
    + destruct (scaled_side h w) as [HT HS]; [lia|lia|].
      cbv zeta in HT, HS.
      repeat split; try lia.
    + repeat split; try lia.
  - destruct (Z.ltb_spec 800 h) as [B|B].
    + destruct (scaled_side w h) as [HT HS]; [lia|lia|].
      cbv zeta in HT, HS.
      repeat split; try lia.
    + repeat split; try lia.
Qed.

End ResizeFacts.

(** * The handlers *)
Module AdminFacts.
Import Num JS Admin.

(** A string of base64 characters has no comma, so [split] leaves it
    whole. *)
Lemma split_base64 b : isBase64 b = true -> split "," b = [b].
Proof.
  induction b as [|c r IH]; intros H; [reflexivity|].
  simpl in H. apply andb_prop in H. destruct H as [Hc Hr].
  simpl split. rewrite (IH Hr).
  destruct (Ascii.eqb_spec c ","%char) as [->|_]; [discriminate Hc|reflexivity].
Qed.

Lemma split_jpeg_url b : isBase64 b = true ->
  index (split "," ("data:image/jpeg;base64," ++ b)) 1 = VStr b.
Proof.
  intros H. cbn -[isBase64]. rewrite (split_base64 b H). reflexivity.
Qed.

Section Browser.

Variable numberToString : number -> string.
Variable decode : File -> option (Z * Z).
Variable toDataURL : File -> Z -> Z -> string -> number -> string.

(** The four ways through [handleImageChange] for a picked file. *)
Lemma handleImageChange_wrong_type file st :
  startsWith (file_type file) "image/" = false ->
  handleImageChange decode toDataURL (Some file) st
  = setError (Some "Please select an image file") st.
Proof. intros H. unfold handleImageChange. rewrite H. reflexivity. Qed.

Lemma handleImageChange_too_large file st :
  startsWith (file_type file) "image/" = true ->
  5242880 < file_size file ->
  handleImageChange decode toDataURL (Some file) st
  = setError (Some "Image size should be less than 5MB") st.
Proof.
  intros H1 H2. unfold handleImageChange. rewrite H1.
  change (5 * 1024 * 1024) with 5242880.
  destruct (Z.gtb_spec (file_size file) 5242880); [reflexivity|lia].
Qed.

Lemma handleImageChange_undecodable file st :
  startsWith (file_type file) "image/" = true ->
  file_size file <= 5242880 ->
  decode file = None ->
  handleImageChange decode toDataURL (Some file) st
  = (fst (setError (Some "Error processing the image") st),
     [ReadAndDecode file; SetError (Some "Error processing the image");
      ConsoleError "Image processing error:"]).
Proof.
  intros H1 H2 H3. unfold handleImageChange, optimizeImage. rewrite H1, H3.
  change (5 * 1024 * 1024) with 5242880.
  destruct (Z.gtb_spec (file_size file) 5242880); [lia|reflexivity].
Qed.

Lemma handleImageChange_accepted file w h st :
  startsWith (file_type file) "image/" = true ->
  file_size file <= 5242880 ->
  decode file = Some (w, h) ->
  handleImageChange decode toDataURL (Some file) st
  = (let '(cw, ch) := Resize.canvasSize w h in
     let url := toDataURL file cw ch "image/jpeg" Resize.JPEG_QUALITY in
     ({| products := products st; loading := loading st; error := None;
         openDialog := openDialog st; editingProduct := editingProduct st;
         formData :=
           {| name := name (formData st);
              description := description (formData st);
              price := price (formData st);
              category := category (formData st);
              stock := stock (formData st);
              image := Some {| data := index (split "," url) 1;
                               contentType := "image/jpeg";
                               alt := or_else (name (formData st)) (VStr EmptyString) |} |} |},
      [ReadAndDecode file;
       ToDataURL cw ch "image/jpeg" Resize.JPEG_QUALITY;
       SetError None])).
Proof.
  intros H1 H2 H3. unfold handleImageChange, optimizeImage. rewrite H1, H3.
  change (5 * 1024 * 1024) with 5242880.
  destruct (Z.gtb_spec (file_size file) 5242880); [lia|].
  destruct (Resize.canvasSize w h) as [cw ch]. reflexivity.
Qed.

(** A file that is not accepted leaves everything but the error message
    as it was. *)
Lemma handleImageChange_rejected file st :
  accepted decode file = false ->
  exists msg log,
    handleImageChange decode toDataURL (Some file) st
    = (fst (setError (Some msg) st), log).
Proof.
  unfold accepted.
  destruct (startsWith (file_type file) "image/") eqn:H1;
    [|intros _; rewrite handleImageChange_wrong_type by assumption; do 2 eexists; reflexivity].
  destruct (Z.leb_spec (file_size file) 5242880) as [H2|H2];
    [|intros _; rewrite handleImageChange_too_large by assumption; do 2 eexists; reflexivity].
  destruct (decode file) as [[w h]|] eqn:H3; [discriminate|].
  intros _. rewrite handleImageChange_undecodable by assumption. do 2 eexists; reflexivity.
Qed.

(** ** [handleSubmit] *)

(** A price that parses to NaN or to a Number that is not positive fails
    the price check, also after [|| 0]. *)
Lemma price_check p :
  isNaN p = true \/ le p (ofZ 0) = true ->
  isNaN (Num.or_else p (ofZ 0)) || le (Num.or_else p (ofZ 0)) (ofZ 0) = true.
Proof.
  intros H. unfold Num.or_else.
  destruct p as [s|s| |s m e]; simpl Num.truthy; cbv iota.
  - reflexivity.
  - destruct H as [H|H]; [discriminate H|]. rewrite H. apply orb_true_r.
  - reflexivity.
  - destruct H as [H|H]; [discriminate H|]. rewrite H. apply orb_true_r.
Qed.

(** Without an image every submission stops at one of the first two
    checks. *)
Lemma handleSubmit_without_image saved st :
  image (formData st) = None ->
  handleSubmit numberToString saved st
  = setError (Some (if truthy (name (formData st))
                       && truthy (description (formData st))
                       && truthy (price (formData st))
                       && truthy (category (formData st))
                    then "Please select an image"
                    else "Please fill in all required fields")) st.
Proof.
  intros H. unfold handleSubmit. rewrite H. simpl imageData.
  destruct (truthy (name (formData st))),
           (truthy (description (formData st))),
           (truthy (price (formData st))),
           (truthy (category (formData st))); reflexivity.
Qed.

(** How a submission can end: stopped by a check, with one message; or
    one request made, which fails, reported with one message; or one
    request made, which succeeds. *)
Lemma handleSubmit_outcome saved st :
  (exists msg,
     handleSubmit numberToString saved st = setError (Some msg) st /\
     (msg = "Please fill in all required fields" \/
      msg = "Please select an image" \/
      msg = "Please enter a valid price" \/
      msg = "Please enter a valid stock quantity")) \/
  (exists req, isRequest req = true /\ saved = false /\
     handleSubmit numberToString saved st
     = (fst (setError (Some "Failed to save product") st),
        [req; SetError (Some "Failed to save product");
         ConsoleError "Error saving product:"])) \/
  (exists req st', isRequest req = true /\ saved = true /\
     handleSubmit numberToString saved st
     = (st', [req; SetError None; FetchProductsCalled])).
Proof.
  destruct (image (formData st)) as [img|] eqn:Hi.
  2:{ left. rewrite handleSubmit_without_image by assumption.
      eexists. split; [reflexivity|].
      destruct (truthy (name (formData st)) && truthy (description (formData st))
                && truthy (price (formData st)) && truthy (category (formData st)));
        auto. }
  unfold handleSubmit. rewrite Hi. cbn [imageData].
  destruct (negb (truthy (name (formData st)))
            || negb (truthy (description (formData st)))
            || negb (truthy (price (formData st)))
            || negb (truthy (category (formData st)))).
  { left. eexists. split; [reflexivity|auto]. }
  destruct (negb (truthy (data img))).
  { left. eexists. split; [reflexivity|auto]. }
  cbn [send_price send_stock].
  destruct (isNaN (Num.or_else (parseFloat numberToString (price (formData st))) (ofZ 0))
            || le (Num.or_else (parseFloat numberToString (price (formData st))) (ofZ 0)) (ofZ 0)).
  { left. eexists. split; [reflexivity|auto]. }
  destruct (isNaN (Num.or_else (parseInt numberToString (stock (formData st))) (ofZ 0))
            || lt (Num.or_else (parseInt numberToString (stock (formData st))) (ofZ 0)) (ofZ 0)).
  { left. eexists. split; [reflexivity|auto 6]. }
  right. destruct saved; [right|left];
    destruct (editingProduct st) as [p|];
    repeat eexists; reflexivity.
Qed.

(** The effects of a submission depend on the form and on the product
    being edited only. *)
Lemma handleSubmit_effects_ext saved st1 st2 :
  formData st1 = formData st2 ->
  editingProduct st1 = editingProduct st2 ->
  snd (handleSubmit numberToString saved st1)
  = snd (handleSubmit numberToString saved st2).
Proof.
  intros Hf He. unfold handleSubmit. rewrite Hf, He.
  destruct (negb (truthy (name (formData st2)))
            || negb (truthy (description (formData st2)))
            || negb (truthy (price (formData st2)))
            || negb (truthy (category (formData st2)))); [reflexivity|].
  destruct (negb (truthy (imageData (image (formData st2))))); [reflexivity|].
  destruct (image (formData st2)) as [img|]; [|reflexivity].
  cbn [send_price send_stock].
  destruct (isNaN (Num.or_else (parseFloat numberToString (price (formData st2))) (ofZ 0))
            || le (Num.or_else (parseFloat numberToString (price (formData st2))) (ofZ 0)) (ofZ 0));
    [reflexivity|].
  destruct (isNaN (Num.or_else (parseInt numberToString (stock (formData st2))) (ofZ 0))
            || lt (Num.or_else (parseInt numberToString (stock (formData st2))) (ofZ 0)) (ofZ 0));
    [reflexivity|].
  destruct saved, (editingProduct st2); reflexivity.
Qed.

(** ** Events *)

(** Only an accepted file puts an image into the form. *)
Lemma image_stays_absent ev st :
  picksAccepted decode ev = false ->
  image (formData st) = None ->
  image (formData (fst (handle numberToString decode toDataURL ev st))) = None.
Proof.
  intros Hev Hi. destruct ev as [f v|picked|saved|res|pid c d|p| |]; simpl handle.
  - destruct f; exact Hi.
  - destruct picked as [file|]; [|exact Hi].
    destruct (handleImageChange_rejected file st Hev) as (msg & log & ->).
    exact Hi.
  - rewrite handleSubmit_without_image by assumption. exact Hi.
  - destruct res; exact Hi.
  - destruct c; [destruct d|]; exact Hi.
  - reflexivity.
  - exact Hi.
  - reflexivity.
Qed.

Lemma image_absent_after evs st :
  forallb (fun ev => negb (picksAccepted decode ev)) evs = true ->
  image (formData st) = None ->
  image (formData (after numberToString decode toDataURL evs st)) = None.
Proof.
  revert st. induction evs as [|ev evs IH]; intros st Hev Hi; [exact Hi|].
  simpl in Hev. apply andb_prop in Hev. destruct Hev as [H1 H2].
  simpl after. apply IH; [exact H2|].
  apply image_stays_absent; [|exact Hi].
  destruct (picksAccepted decode ev); [discriminate H1|reflexivity].
Qed.

End Browser.

End AdminFacts.

(** * The claims of the specification *)

Import Num JS Admin.

Section ImageClaims.

Variable decode : File -> option (Z * Z).
Variable toDataURL : File -> Z -> Z -> string -> number -> string.

(** C1.  A file that is accepted (its type starts with ["image/"], it has
    at most 5,242,880 bytes and it decodes, to [w] by [h] pixels) is drawn
    on a canvas of [cw] by [ch] pixels, the one handed to the encoder, with
    [max cw ch <= 800], and with the ratio of the image up to rounding:
    the side the code tests first (the width when [w > h], the height
    otherwise) is exactly the minimum of its length and 800, and the other
    side is the proportional length rounded down to an integer, or one
    less; so [cw * h] and [ch * w] differ by at most the longer side of
    the image. *)
Theorem C1_canvas_within_800_keeps_ratio st file w h :
  startsWith (file_type file) "image/" = true ->
  file_size file <= 5242880 ->
  decode file = Some (w, h) ->
  0 <= w < 2 ^ 32 -> 0 <= h < 2 ^ 32 ->
  exists cw ch,
    Resize.canvasSize w h = (cw, ch) /\
    snd (Admin.handleImageChange decode toDataURL (Some file) st)
    = [ReadAndDecode file;
       ToDataURL cw ch "image/jpeg" Resize.JPEG_QUALITY;
       SetError None] /\
    0 <= cw /\ 0 <= ch /\ Z.max cw ch <= 800 /\
    Z.abs (cw * h - ch * w) <= Z.max w h /\
    (h < w -> cw = Z.min w 800 /\ ch * w <= cw * h <= (ch + 1) * w) /\
    (w <= h -> ch = Z.min h 800 /\ cw * h <= ch * w <= (cw + 1) * h).
Proof.
  intros Ht Hs Hd Hw Hh.
  rewrite (AdminFacts.handleImageChange_accepted decode toDataURL file w h st Ht Hs Hd).
  pose proof (ResizeFacts.canvasSize_spec w h Hw Hh) as H.
  destruct (Resize.canvasSize w h) as [cw ch].
  exists cw, ch. destruct H as (Hcw & Hch & Hlt & Hle).
  split; [reflexivity|]. split; [reflexivity|].
  split; [lia|]. split; [lia|]. split; [lia|]. split; [lia|].
  split; assumption.
Qed.

(** C5.  A file of more than 5,242,880 bytes is rejected: the handler only
    sets an error message; it neither reads nor decodes the file, encodes
    nothing, and [formData] (so [formData.image]) stays as it was. *)
Theorem C5_oversized_file_rejected_before_decode st file :
  5242880 < file_size file ->
  let r := Admin.handleImageChange decode toDataURL (Some file) st in
  (exists msg, snd r = [SetError (Some msg)] /\ error (fst r) = Some msg) /\
  (forall f, ~ In (ReadAndDecode f) (snd r)) /\
  (forall cw ch mime q, ~ In (ToDataURL cw ch mime q) (snd r)) /\
  formData (fst r) = formData st.
Proof.
  intros Hs r.
  assert (E : exists msg, r = setError (Some msg) st).
  { unfold r. destruct (startsWith (file_type file) "image/") eqn:Ht.
    - rewrite AdminFacts.handleImageChange_too_large by assumption. eauto.
    - rewrite AdminFacts.handleImageChange_wrong_type by assumption. eauto. }
  destruct E as [msg ->]. simpl.
  split; [exists msg; split; reflexivity|].
  split; [intros f [H|[]]; discriminate H|].
  split; [intros cw ch mime q [H|[]]; discriminate H|reflexivity].
Qed.

(** C6.  A file whose declared type does not start with ["image/"] is
    rejected with the message "Please select an image file"; nothing is
    read or encoded and [formData] (so [formData.image]) stays as it was. *)
Theorem C6_non_image_type_rejected st file :
  startsWith (file_type file) "image/" = false ->
  let r := Admin.handleImageChange decode toDataURL (Some file) st in
  snd r = [SetError (Some "Please select an image file")] /\
  error (fst r) = Some "Please select an image file" /\
  formData (fst r) = formData st.
Proof.
  intros Ht r. unfold r.
  rewrite AdminFacts.handleImageChange_wrong_type by assumption.
  repeat split.
Qed.


End ImageClaims.

(** C2, as the specification words it, fails on a square image larger than
    800 pixels: the code compares with [width > height], so a square goes
    through the branch that fixes the height, and the width it computes,
    [1078 * (800 / 1078)] on Numbers, is just below 800 and truncates
    to 799. *)
Lemma C2_square_image_counterexample :
  Resize.canvasSize 1078 1078 = (799, 800) /\
  ~ (1078 >= 1078 -> fst (Resize.canvasSize 1078 1078) = Z.min 1078 800).
Proof.
  split; [vm_compute; reflexivity|].
  intros H. specialize (H ltac:(lia)). vm_compute in H. discriminate H.
Qed.

(** C2, amended.  If the width is strictly greater than the height, the
    width of the canvas is [min width 800] and the height is the
    proportional length rounded down to an integer or one less; otherwise
    (also for a square image) the height of the canvas is [min height 800]
    and the width is the proportional length rounded down or one less.  An
    image within 800 by 800 keeps its size; 1600 by 1200 gives 800 by 600
    and 1200 by 1600 gives 600 by 800. *)
Theorem C2_target_size_rule w h :
  0 <= w < 2 ^ 32 -> 0 <= h < 2 ^ 32 ->
  let cw := fst (Resize.canvasSize w h) in
  let ch := snd (Resize.canvasSize w h) in
  (h < w -> cw = Z.min w 800 /\ ch * w <= cw * h <= (ch + 1) * w) /\
  (w <= h -> ch = Z.min h 800 /\ cw * h <= ch * w <= (cw + 1) * h) /\
  (w <= 800 -> h <= 800 -> (cw, ch) = (w, h)) /\
  Resize.canvasSize 1600 1200 = (800, 600) /\
  Resize.canvasSize 1200 1600 = (600, 800).
Proof.
  intros Hw Hh cw ch.
  pose proof (ResizeFacts.canvasSize_spec w h Hw Hh) as H.
  pose proof (ResizeFacts.canvasSize_cases w h Hw Hh) as E.
  unfold cw, ch. destruct (Resize.canvasSize w h) as [a b]. cbn [fst snd].
  destruct H as (_ & _ & Hlt & Hle).
  split; [exact Hlt|]. split; [exact Hle|].
  split; [|split; vm_compute; reflexivity].
  intros W H. rewrite E.
  destruct (h <? w);
    [destruct (Z.ltb_spec 800 w)|destruct (Z.ltb_spec 800 h)];
    try reflexivity; lia.
Qed.

Section FormClaims.

Variable numberToString : number -> string.
Variable decode : File -> option (Z * Z).
Variable toDataURL : File -> Z -> Z -> string -> number -> string.

(** C4, amended.  A submission whose price field is read by [parseFloat]
    as NaN (it has no numeric prefix) or as a Number that is not positive
    is stopped by a check: the only effect is one error message, no
    request is made, and the products and the form stay as they were. *)
Theorem C4_invalid_price_rejected saved st :
  isNaN (parseFloat numberToString (price (formData st))) = true
  \/ le (parseFloat numberToString (price (formData st))) (ofZ 0) = true ->
  let r := handleSubmit numberToString saved st in
  (exists msg,
     snd r = [SetError (Some msg)] /\ error (fst r) = Some msg /\
     (msg = "Please fill in all required fields" \/
      msg = "Please select an image" \/
      msg = "Please enter a valid price")) /\
  (forall e, In e (snd r) -> isRequest e = false) /\
  formData (fst r) = formData st /\
  products (fst r) = products st.
Proof.
  intros Hp r.
  assert (E : exists msg,
             r = setError (Some msg) st /\
             (msg = "Please fill in all required fields" \/
              msg = "Please select an image" \/
              msg = "Please enter a valid price")).
  { unfold r. destruct (image (formData st)) as [img|] eqn:Hi.
    2:{ rewrite AdminFacts.handleSubmit_without_image by assumption.
        eexists. split; [reflexivity|].
        destruct (truthy (name (formData st)) && truthy (description (formData st))
                  && truthy (price (formData st)) && truthy (category (formData st)));
          auto. }
    unfold handleSubmit. rewrite Hi. cbn [imageData].
    destruct (negb (truthy (name (formData st)))
              || negb (truthy (description (formData st)))
              || negb (truthy (price (formData st)))
              || negb (truthy (category (formData st)))).
    { eexists. split; [reflexivity|auto]. }
    destruct (negb (truthy (data img))).
    { eexists. split; [reflexivity|auto]. }
    cbn [send_price]. rewrite (AdminFacts.price_check _ Hp).
    eexists. split; [reflexivity|auto]. }
  destruct E as (msg & -> & Hmsg). simpl.
  split; [exists msg; auto|].
  split; [intros e [<-|[]]; reflexivity|].
  split; reflexivity.
Qed.

(** Whatever the event, if its handler sets an error message, then it
    sets exactly one; the products, the form (with the image it holds),
    the product being edited and the dialog are as before; the message is
    the one displayed; at most one request was made; and after the message
    the handler only writes to the console: nothing is tried again. *)
Lemma error_message_keeps_state ev st msg :
  let r := handle numberToString decode toDataURL ev st in
  In (SetError (Some msg)) (snd r) ->
  products (fst r) = products st /\
  formData (fst r) = formData st /\
  editingProduct (fst r) = editingProduct st /\
  openDialog (fst r) = openDialog st /\
  error (fst r) = Some msg /\
  filter isSetError (snd r) = [SetError (Some msg)] /\
  (List.length (filter isRequest (snd r)) <= 1)%nat /\
  exists pre post,
    snd r = (pre ++ SetError (Some msg) :: post)%list /\
    forall e, In e post -> exists label, e = ConsoleError label.
Proof.
  intros r. unfold r. clear r.
  destruct ev as [f v|picked|saved|res|pid c d|p| |]; simpl handle.
  - destruct f; intros [].
  - destruct picked as [file|]; [|intros []].
    destruct (startsWith (file_type file) "image/") eqn:Ht.
    2:{ rewrite AdminFacts.handleImageChange_wrong_type by assumption.
        intros [H|[]]. injection H as <-. simpl. repeat split; auto.
        exists [], []. split; [reflexivity|intros e []]. }
    destruct (Z.leb_spec (file_size file) 5242880) as [Hs|Hs].
    2:{ rewrite AdminFacts.handleImageChange_too_large by assumption.
        intros [H|[]]. injection H as <-. simpl. repeat split; auto.
        exists [], []. split; [reflexivity|intros e []]. }
    destruct (decode file) as [[w h]|] eqn:Hd.
    + rewrite (AdminFacts.handleImageChange_accepted decode toDataURL file w h st Ht Hs Hd).
      destruct (Resize.canvasSize w h) as [cw ch].
      intros [H|[H|[H|[]]]]; discriminate H.
    + rewrite AdminFacts.handleImageChange_undecodable by assumption.
      intros [H|[H|[H|[]]]]; try discriminate H.
      injection H as <-. simpl. repeat split; auto.
      exists [ReadAndDecode file], [ConsoleError "Image processing error:"].
      split; [reflexivity|]. intros e [<-|[]]. eauto.
  - destruct (AdminFacts.handleSubmit_outcome numberToString saved st)
      as [(m & -> & _)|[(req & Hreq & _ & ->)|(req & st' & Hreq & _ & ->)]].
    + intros [H|[]]. injection H as <-. simpl. repeat split; auto.
      exists [], []. split; [reflexivity|intros e []].
    + simpl. intros [H|[H|[H|[]]]]; try discriminate H;
        [subst req; discriminate Hreq|].
      injection H as <-. rewrite Hreq. destruct req; try discriminate Hreq;
        simpl; (repeat split; auto;
          match goal with
          | |- context [?q :: SetError _ :: _] =>
              exists [q], [ConsoleError "Error saving product:"]
          end;
          split; [reflexivity|]; intros e [<-|[]]; eauto).
    + simpl. intros [H|[H|[H|[]]]]; try discriminate H.
      subst req. discriminate Hreq.
  - destruct res as [data|]; simpl.
    + intros [H|[]]. discriminate H.
    + intros [H|[H|[H|[]]]]; try discriminate H.
      injection H as <-. repeat split; auto.
      exists [GetAllProducts], [ConsoleError "Error fetching products:"].
      split; [reflexivity|]. intros e [<-|[]]. eauto.
  - destruct c; [destruct d|]; simpl.
    + intros [H|[H|[]]]; discriminate H.
    + intros [H|[H|[H|[]]]]; try discriminate H.
      injection H as <-. repeat split; auto.
      exists [DeleteProduct pid], [ConsoleError "Error deleting product:"].
      split; [reflexivity|]. intros e [<-|[]]. eauto.
    + intros [].
  - intros [].
  - intros [].
  - intros [].
Qed.

(** C9, as stated, fails when a required text field is empty: the message
    is then the one about required fields, not the one about the image.
    Here the product being edited has an empty description. *)
Lemma C9_message_counterexample :
  product_description Sample.undescribed = VStr EmptyString /\
  handleSubmit Sample.numberToString true
    (fst (handleEdit Sample.undescribed initialState))
  = setError (Some "Please fill in all required fields")
      (fst (handleEdit Sample.undescribed initialState)) /\
  error (fst (handleSubmit Sample.numberToString true
                (fst (handleEdit Sample.undescribed initialState))))
  <> Some "Please select an image".
Proof.
  split; [reflexivity|]. split; [reflexivity|]. simpl. discriminate.
Qed.

(** C9, amended.  [handleEdit] sets the image of the form to [null]
    whatever the product holds.  From then on, as long as no accepted file
    is picked, every submission is stopped before any request: with the
    message "Please select an image" when the four required fields are
    filled in, with "Please fill in all required fields" otherwise. *)
Theorem C9_edit_clears_image_and_blocks_update p st evs saved :
  forallb (fun ev => negb (picksAccepted decode ev)) evs = true ->
  let st1 := fst (handleEdit p st) in
  let st2 := after numberToString decode toDataURL evs st1 in
  let r := handleSubmit numberToString saved st2 in
  image (formData st1) = None /\
  editingProduct st1 = Some p /\
  image (formData st2) = None /\
  snd r = [SetError (error (fst r))] /\
  error (fst r)
  = Some (if truthy (name (formData st2))
             && truthy (description (formData st2))
             && truthy (price (formData st2))
             && truthy (category (formData st2))
          then "Please select an image"
          else "Please fill in all required fields") /\
  formData (fst r) = formData st2 /\
  products (fst r) = products st2.
Proof.
  intros Hev st1 st2 r.
  assert (H1 : image (formData st1) = None) by reflexivity.
  assert (H2 : image (formData st2) = None).
  { unfold st2. apply AdminFacts.image_absent_after; assumption. }
  unfold r. rewrite AdminFacts.handleSubmit_without_image by assumption.
  repeat split; assumption.
Qed.

(** C10.  When the picked file is rejected (wrong type, too large, or not
    decodable), the form is unchanged, so an image accepted earlier is
    still in [formData.image], and a submission after the rejection has
    the effects it would have had before it: if it makes a request, the
    request carries the data and the content type of the earlier image. *)
Theorem C10_rejected_file_keeps_form_and_earlier_image file st :
  accepted decode file = false ->
  let st' := fst (handleImageChange decode toDataURL (Some file) st) in
  formData st' = formData st /\
  (forall saved,
     snd (handleSubmit numberToString saved st')
     = snd (handleSubmit numberToString saved st)) /\
  (forall img saved req,
     image (formData st) = Some img ->
     In req (snd (handleSubmit numberToString saved st')) ->
     image (formData st') = Some img /\
     match req with
     | CreateProduct d | UpdateProduct _ d =>
         data (send_image d) = data img /\
         contentType (send_image d) = contentType img
     | _ => True
     end).
Proof.
  intros Hrej st'.
  destruct (AdminFacts.handleImageChange_rejected decode toDataURL file st Hrej)
    as (msg & log & E).
  assert (Hf : formData st' = formData st) by (unfold st'; rewrite E; reflexivity).
  assert (He : editingProduct st' = editingProduct st)
    by (unfold st'; rewrite E; reflexivity).
  split; [exact Hf|].
  split; [intros saved; apply AdminFacts.handleSubmit_effects_ext; assumption|].
  intros img saved req Hi Hin.
  split; [rewrite Hf; exact Hi|].
  rewrite (AdminFacts.handleSubmit_effects_ext numberToString saved st' st Hf He) in Hin.
  revert Hin. unfold handleSubmit. rewrite Hi. cbn [imageData].
  destruct (negb (truthy (name (formData st)))
            || negb (truthy (description (formData st)))
            || negb (truthy (price (formData st)))
            || negb (truthy (category (formData st)))).
  { intros [<-|[]]. exact I. }
  destruct (negb (truthy (data img))).
  { intros [<-|[]]. exact I. }
  cbn [send_price send_stock].
  destruct (isNaN (Num.or_else (parseFloat numberToString (price (formData st))) (ofZ 0))
            || le (Num.or_else (parseFloat numberToString (price (formData st))) (ofZ 0)) (ofZ 0)).
  { intros [<-|[]]. exact I. }
  destruct (isNaN (Num.or_else (parseInt numberToString (stock (formData st))) (ofZ 0))
            || lt (Num.or_else (parseInt numberToString (stock (formData st))) (ofZ 0)) (ofZ 0)).
  { intros [<-|[]]. exact I. }
  destruct saved, (editingProduct st) as [p|]; simpl;
    intros [<-|[<-|[<-|[]]]]; try exact I; split; reflexivity.
Qed.

End FormClaims.

(** C3.  The code does not do what the claim says: a stock that is not a
    number ("abc", or empty) makes [parseInt] answer NaN, [|| 0] turns the
    NaN into 0, and the check [isNaN(stock) || stock < 0] that follows
    lets 0 through, so the product is created with a stock of 0.  A
    negative stock above -1 ends the same way, through [-0]. *)
Theorem C3_non_numeric_stock_is_sent_as_zero nts :
  let sent stock :=
    [CreateProduct
       {| send_name := VStr "Shirt";
          send_description := VStr "Cotton shirt";
          send_price := ofDecimal false 1999 (-2);
          send_category := VStr "men";
          send_stock := stock;
          send_image := {| data := VStr "/9j/"; contentType := "image/jpeg";
                           alt := VStr "Shirt" |} |};
     SetError None; FetchProductsCalled] in
  parseInt nts (VStr "abc") = S754_nan /\
  snd (handleSubmit nts true (Sample.withForm (Sample.shirtForm "19.99" "abc")))
  = sent (ofZ 0) /\
  snd (handleSubmit nts true (Sample.withForm (Sample.shirtForm "19.99" EmptyString)))
  = sent (ofZ 0) /\
  snd (handleSubmit nts true (Sample.withForm (Sample.shirtForm "19.99" "-0.5")))
  = sent (ofZ 0).
Proof. repeat split. Qed.

(** A stock that parses to a negative integer is rejected. *)
Example negative_integer_stock_rejected nts :
  handleSubmit nts true (Sample.withForm (Sample.shirtForm "19.99" "-1"))
  = setError (Some "Please enter a valid stock quantity")
      (Sample.withForm (Sample.shirtForm "19.99" "-1")).
Proof. reflexivity. Qed.

(** ** The claims on concrete inputs *)

Lemma C1_witness :
  startsWith (file_type Sample.photo) "image/" = true /\
  file_size Sample.photo <= 5242880 /\
  Sample.decode Sample.photo = Some (1600, 1200) /\
  exists cw ch,
    Resize.canvasSize 1600 1200 = (cw, ch) /\
    Z.max cw ch <= 800 /\ Z.abs (cw * 1200 - ch * 1600) <= Z.max 1600 1200.
Proof.
  split; [reflexivity|]. split; [vm_compute; discriminate|].
  split; [reflexivity|].
  destruct (C1_canvas_within_800_keeps_ratio Sample.decode Sample.toDataURL
              initialState Sample.photo 1600 1200)
    as (cw & ch & E & _ & _ & _ & M & A & _);
    [reflexivity|vm_compute; discriminate|reflexivity|lia|lia|].
  exists cw, ch. repeat split; assumption.
Defined.

Lemma C2_witness :
  (0 <= 1078 < 2 ^ 32) /\
  (1078 <= 1078 ->
   snd (Resize.canvasSize 1078 1078) = Z.min 1078 800 /\
   fst (Resize.canvasSize 1078 1078) * 1078
   <= snd (Resize.canvasSize 1078 1078) * 1078
   <= (fst (Resize.canvasSize 1078 1078) + 1) * 1078).
Proof.
  split; [lia|].
  destruct (C2_target_size_rule 1078 1078) as (_ & H & _); [lia|lia|exact H].
Defined.

Lemma C4_witness :
  isNaN (parseFloat Sample.numberToString (VStr "abc")) = true /\
  le (parseFloat Sample.numberToString (VStr "0")) (ofZ 0) = true /\
  (forall e,
     In e (snd (handleSubmit Sample.numberToString true
                  (Sample.withForm (Sample.shirtForm "abc" "5")))) ->
     isRequest e = false) /\
  (forall e,
     In e (snd (handleSubmit Sample.numberToString true
                  (Sample.withForm (Sample.shirtForm "0" "5")))) ->
     isRequest e = false).
Proof.
  split; [reflexivity|]. split; [reflexivity|]. split.
  - destruct (C4_invalid_price_rejected Sample.numberToString true
                (Sample.withForm (Sample.shirtForm "abc" "5")))
      as (_ & H & _); [left; reflexivity|exact H].
  - destruct (C4_invalid_price_rejected Sample.numberToString true
                (Sample.withForm (Sample.shirtForm "0" "5")))
      as (_ & H & _); [right; reflexivity|exact H].
Defined.

Lemma C5_witness :
  5242880 < file_size Sample.tooLarge /\
  (forall f,
     ~ In (ReadAndDecode f)
          (snd (handleImageChange Sample.decode Sample.toDataURL
                  (Some Sample.tooLarge) initialState))) /\
  formData (fst (handleImageChange Sample.decode Sample.toDataURL
                   (Some Sample.tooLarge) initialState))
  = formData initialState.
Proof.
  split; [reflexivity|].
  destruct (C5_oversized_file_rejected_before_decode Sample.decode
              Sample.toDataURL initialState Sample.tooLarge)
    as (_ & H1 & _ & H2); [reflexivity|].
  split; [exact H1|exact H2].
Defined.

Lemma C6_witness :
  startsWith (file_type Sample.document) "image/" = false /\
  snd (handleImageChange Sample.decode Sample.toDataURL
         (Some Sample.document) initialState)
  = [SetError (Some "Please select an image file")] /\
  formData (fst (handleImageChange Sample.decode Sample.toDataURL
                   (Some Sample.document) initialState))
  = formData initialState.
Proof.
  split; [reflexivity|].
  destruct (C6_non_image_type_rejected Sample.decode Sample.toDataURL
              initialState Sample.document)
    as (H1 & _ & H2); [reflexivity|].
  split; [exact H1|exact H2].
Defined.


Lemma C9_witness :
  forallb (fun ev => negb (picksAccepted Sample.decode ev))
    [InputChanged FPrice "25"; FilePicked (Some Sample.broken);
     FilePicked (Some Sample.tooLarge); Submitted true] = true /\
  snd (handleSubmit Sample.numberToString true
         (after Sample.numberToString Sample.decode Sample.toDataURL
            [InputChanged FPrice "25"; FilePicked (Some Sample.broken);
             FilePicked (Some Sample.tooLarge); Submitted true]
            (fst (handleEdit Sample.shirt initialState))))
  = [SetError (Some "Please select an image")].
Proof.
  split; [reflexivity|].
  destruct (C9_edit_clears_image_and_blocks_update Sample.numberToString
              Sample.decode Sample.toDataURL Sample.shirt initialState
              [InputChanged FPrice "25"; FilePicked (Some Sample.broken);
               FilePicked (Some Sample.tooLarge); Submitted true] true)
    as (_ & _ & _ & H1 & H2 & _); [reflexivity|].
  rewrite H1, H2. reflexivity.
Defined.

Lemma C10_witness :
  accepted Sample.decode Sample.broken = false /\
  image (formData (Sample.withForm (Sample.shirtForm "19.99" "5")))
  = Some Sample.shirtImage /\
  (exists d,
     In (CreateProduct d)
        (snd (handleSubmit Sample.numberToString true
                (fst (handleImageChange Sample.decode Sample.toDataURL
                        (Some Sample.broken)
                        (Sample.withForm (Sample.shirtForm "19.99" "5")))))) /\
     data (send_image d) = data Sample.shirtImage).
Proof.
  split; [reflexivity|]. split; [reflexivity|].
  destruct (C10_rejected_file_keeps_form_and_earlier_image Sample.numberToString
              Sample.decode Sample.toDataURL Sample.broken
              (Sample.withForm (Sample.shirtForm "19.99" "5")))
    as (_ & H & _); [reflexivity|].
  rewrite (H true). eexists. split; [left; reflexivity|reflexivity].
Defined.

(** * Further properties of the code *)

(** ** The size of the canvas *)

(** X1.  The canvas is never larger than the image in either direction,
    and a canvas-sized image is left as it is: optimising an image that
    was already optimised keeps its size. *)
Theorem X1_canvas_never_enlarges_and_is_stable w h :
  0 <= w < 2 ^ 32 -> 0 <= h < 2 ^ 32 ->
  let cw := fst (Resize.canvasSize w h) in
  let ch := snd (Resize.canvasSize w h) in
  0 <= cw <= w /\ 0 <= ch <= h /\ Resize.canvasSize cw ch = (cw, ch).
Proof.
  intros Hw Hh cw ch.
  assert (B : 0 <= cw <= w /\ 0 <= ch <= h /\ cw <= 800 /\ ch <= 800).
  { unfold cw, ch. rewrite ResizeFacts.canvasSize_cases by assumption.
    destruct (Z.ltb_spec h w) as [L|L].
    - destruct (Z.ltb_spec 800 w) as [B|B]; cbn [fst snd]; [|lia].
      destruct (NumFacts.scaled_side h w) as [HT HS]; [lia|lia|].
      cbv zeta in HT, HS. nia.
    - destruct (Z.ltb_spec 800 h) as [B|B]; cbn [fst snd]; [|lia].
      destruct (NumFacts.scaled_side w h) as [HT HS]; [lia|lia|].
      cbv zeta in HT, HS. nia. }
  destruct B as (B1 & B2 & B3 & B4).
  split; [exact B1|]. split; [exact B2|].
  rewrite ResizeFacts.canvasSize_cases by lia.
  destruct (ch <? cw);
    [destruct (Z.ltb_spec 800 cw)|destruct (Z.ltb_spec 800 ch)];
    try reflexivity; lia.
Qed.

(** X2.  Turning an image that is not square by a quarter turn turns its
    canvas: swapping width and height of the image swaps those of the
    canvas.  (A square image is excluded: its two sides go through
    different computations, see the amended C2.) *)
Theorem X2_canvas_of_rotated_image w h :
  0 <= w < 2 ^ 32 -> 0 <= h < 2 ^ 32 -> w <> h ->
  Resize.canvasSize h w
  = (snd (Resize.canvasSize w h), fst (Resize.canvasSize w h)).
Proof.
  intros Hw Hh Hne. rewrite !ResizeFacts.canvasSize_cases by assumption.
  destruct (Z.ltb_spec h w) as [L|L]; destruct (Z.ltb_spec w h) as [L'|L'];
    try lia.
  - destruct (800 <? w); reflexivity.
  - destruct (800 <? h); reflexivity.
Qed.

(** X3.  A side of the canvas has no pixels exactly for the very elongated
    images: for an image with pixels the height of the canvas is 0 when
    the width is more than 800 times the height, and only when it is at
    least 800 times the height; the same for the width. *)
Theorem X3_canvas_side_vanishes_only_for_elongated_images w h :
  0 < w < 2 ^ 32 -> 0 < h < 2 ^ 32 ->
  let cw := fst (Resize.canvasSize w h) in
  let ch := snd (Resize.canvasSize w h) in
  (800 * h < w -> ch = 0) /\ (ch = 0 -> 800 * h <= w) /\
  (800 * w < h -> cw = 0) /\ (cw = 0 -> 800 * w <= h).
Proof.
  intros Hw Hh cw ch. unfold cw, ch.
  rewrite ResizeFacts.canvasSize_cases by lia.
  destruct (Z.ltb_spec h w) as [L|L].
  - destruct (Z.ltb_spec 800 w) as [B|B]; cbn [fst snd]; [|lia].
    destruct (NumFacts.scaled_side h w) as [HT HS]; [lia|lia|].
    cbv zeta in HT, HS.
    repeat split; intros; try lia; nia.
  - destruct (Z.ltb_spec 800 h) as [B|B]; cbn [fst snd]; [|lia].
    destruct (NumFacts.scaled_side w h) as [HT HS]; [lia|lia|].
    cbv zeta in HT, HS.
    repeat split; intros; try lia; nia.
Qed.

(** ** The handlers, again *)
Module AdminMore.
Import Num JS Admin.

(** A Number that passes the price check is positive. *)
Lemma checked_price p :
  isNaN (Num.or_else p (ofZ 0)) || le (Num.or_else p (ofZ 0)) (ofZ 0) = false ->
  Num.or_else p (ofZ 0) = p /\ gt p (ofZ 0) = true.
Proof.
  destruct p as [s|s| |s m e]; try destruct s; intros H;
    try discriminate H; split; reflexivity.
Qed.

(** A Number that passes the stock check is at least 0. *)
Lemma checked_stock x :
  isNaN x || lt x (ofZ 0) = false -> le (ofZ 0) x = true.
Proof.
  destruct x as [s|s| |s m e]; try destruct s; intros H;
    try discriminate H; reflexivity.
Qed.

(** A positive Number passes the price check, and a stock that is NaN
    or at least 0 passes the stock check. *)
Lemma price_passes p :
  gt p (ofZ 0) = true ->
  Num.or_else p (ofZ 0) = p /\
  isNaN (Num.or_else p (ofZ 0)) || le (Num.or_else p (ofZ 0)) (ofZ 0) = false.
Proof.
  destruct p as [s|s| |s m e]; try destruct s; intros H;
    try discriminate H; split; reflexivity.
Qed.

Lemma stock_passes x :
  isNaN x = true \/ le (ofZ 0) x = true ->
  isNaN (Num.or_else x (ofZ 0)) || lt (Num.or_else x (ofZ 0)) (ofZ 0) = false.
Proof.
  destruct x as [s|s| |s m e]; try destruct s; intros [H|H];
    try discriminate H; reflexivity.
Qed.

(** The stock check, after [|| 0], stops exactly the stocks that read as
    negative. *)
Lemma stock_check_eq x :
  isNaN (Num.or_else x (ofZ 0)) || lt (Num.or_else x (ofZ 0)) (ofZ 0)
  = lt x (ofZ 0).
Proof. destruct x as [s|s| |s m e]; try destruct s; reflexivity. Qed.

Lemma required_cond a b c d :
  negb a || negb b || negb c || negb d = negb (a && b && c && d).
Proof. destruct a, b, c, d; reflexivity. Qed.

Lemma all_filled a b c d :
  negb a || negb b || negb c || negb d = false -> a && b && c && d = true.
Proof. destruct a, b, c, d; intros H; try discriminate H; reflexivity. Qed.

Section Browser.

Variable numberToString : number -> string.
Variable decode : File -> option (Z * Z).
Variable toDataURL : File -> Z -> Z -> string -> number -> string.

(** What a submission sends, when it sends something: the form passed
    every check, and the request is the update of the product being
    edited, or a creation when none is. *)
Lemma handleSubmit_request saved st req :
  In req (snd (handleSubmit numberToString saved st)) ->
  isRequest req = true ->
  exists img d,
    image (formData st) = Some img /\
    req = match editingProduct st with
          | Some p => UpdateProduct (_id p) d
          | None => CreateProduct d
          end /\
    d = {| send_name := name (formData st);
           send_description := description (formData st);
           send_price := parseFloat numberToString (price (formData st));
           send_category := category (formData st);
           send_stock :=
             Num.or_else (parseInt numberToString (stock (formData st))) (ofZ 0);
           send_image := {| data := data img;
                            contentType := contentType img;
                            alt := name (formData st) |} |} /\
    truthy (name (formData st)) && truthy (description (formData st))
      && truthy (price (formData st)) && truthy (category (formData st)) = true /\
    truthy (data img) = true /\
    gt (send_price d) (ofZ 0) = true /\
    le (ofZ 0) (send_stock d) = true.
Proof.
  destruct (image (formData st)) as [img|] eqn:Hi.
  2:{ rewrite AdminFacts.handleSubmit_without_image by assumption.
      intros [<-|[]] H. discriminate H. }
  unfold handleSubmit. rewrite Hi. cbn [imageData].
  destruct (negb (truthy (name (formData st)))
            || negb (truthy (description (formData st)))
            || negb (truthy (price (formData st)))
            || negb (truthy (category (formData st)))) eqn:Hreq.
  { intros [<-|[]] H. discriminate H. }
  destruct (negb (truthy (data img))) eqn:Hdata.
  { intros [<-|[]] H. discriminate H. }
  cbn [send_price send_stock].
  destruct (isNaN (Num.or_else (parseFloat numberToString (price (formData st))) (ofZ 0))
            || le (Num.or_else (parseFloat numberToString (price (formData st))) (ofZ 0)) (ofZ 0))
    eqn:Hprice.
  { intros [<-|[]] H. discriminate H. }
  destruct (isNaN (Num.or_else (parseInt numberToString (stock (formData st))) (ofZ 0))
            || lt (Num.or_else (parseInt numberToString (stock (formData st))) (ofZ 0)) (ofZ 0))
    eqn:Hstock.
  { intros [<-|[]] H. discriminate H. }
  destruct (checked_price _ Hprice) as [Ep Hp]. rewrite Ep.
  pose proof (checked_stock _ Hstock) as Hs.
  apply all_filled in Hreq.
  apply negb_false_iff in Hdata.
  intros Hin Hr.
  eexists img, _. split; [reflexivity|].
  refine (conj _ (conj eq_refl _)).
  - destruct saved, (editingProduct st) as [p|]; simpl in Hin;
      destruct Hin as [<-|[<-|[<-|[]]]]; try discriminate Hr; reflexivity.
  - cbn [send_price send_stock]. repeat split; assumption.
Qed.

(** The state after a submission: the one before with an error message
    (and then, if the request was to succeed, none was made), or, after a
    request that succeeded, the reset one. *)
Lemma handleSubmit_state saved st :
  (exists msg,
     fst (handleSubmit numberToString saved st) = fst (setError (Some msg) st) /\
     (saved = true ->
      forall req, In req (snd (handleSubmit numberToString saved st)) ->
                  isRequest req = false)) \/
  (saved = true /\
   (exists req, In req (snd (handleSubmit numberToString saved st))
                /\ isRequest req = true) /\
   fst (handleSubmit numberToString saved st)
   = {| products := products st; loading := loading st; error := None;
        openDialog := false; editingProduct := None;
        formData := savedForm |}).
Proof.
  destruct (image (formData st)) as [img|] eqn:Hi.
  2:{ left. rewrite AdminFacts.handleSubmit_without_image by assumption.
      eexists. split; [reflexivity|]. intros _ req [<-|[]]. reflexivity. }
  unfold handleSubmit. rewrite Hi. cbn [imageData].
  destruct (negb (truthy (name (formData st)))
            || negb (truthy (description (formData st)))
            || negb (truthy (price (formData st)))
            || negb (truthy (category (formData st)))).
  { left. eexists. split; [reflexivity|]. intros _ req [<-|[]]. reflexivity. }
  destruct (negb (truthy (data img))).
  { left. eexists. split; [reflexivity|]. intros _ req [<-|[]]. reflexivity. }
  cbn [send_price send_stock].
  destruct (isNaN (Num.or_else (parseFloat numberToString (price (formData st))) (ofZ 0))
            || le (Num.or_else (parseFloat numberToString (price (formData st))) (ofZ 0)) (ofZ 0)).
  { left. eexists. split; [reflexivity|]. intros _ req [<-|[]]. reflexivity. }
  destruct (isNaN (Num.or_else (parseInt numberToString (stock (formData st))) (ofZ 0))
            || lt (Num.or_else (parseInt numberToString (stock (formData st))) (ofZ 0)) (ofZ 0)).
  { left. eexists. split; [reflexivity|]. intros _ req [<-|[]]. reflexivity. }
  destruct saved; [right|left];
    destruct (editingProduct st) as [p|]; simpl.
  - split; [reflexivity|]. split; [|reflexivity].
    eexists. split; [left; reflexivity|reflexivity].
  - split; [reflexivity|]. split; [|reflexivity].
    eexists. split; [left; reflexivity|reflexivity].
  - eexists. split; [reflexivity|]. intros H. discriminate H.
  - eexists. split; [reflexivity|]. intros H. discriminate H.
Qed.

(** The state after a file was offered: the one before with another error
    message, or, for an accepted file, the one with the new image and no
    error message. *)
Lemma handleImageChange_state picked st :
  (exists m, fst (handleImageChange decode toDataURL picked st)
             = fst (setError m st) /\
             (m = error st \/ exists msg, m = Some msg)) \/
  (exists file url,
     picked = Some file /\ accepted decode file = true /\
     fst (handleImageChange decode toDataURL picked st)
     = {| products := products st; loading := loading st; error := None;
          openDialog := openDialog st; editingProduct := editingProduct st;
          formData :=
            {| name := name (formData st);
               description := description (formData st);
               price := price (formData st);
               category := category (formData st);
               stock := stock (formData st);
               image := Some {| data := index (split "," url) 1;
                                contentType := "image/jpeg";
                                alt := or_else (name (formData st))
                                         (VStr EmptyString) |} |} |}).
Proof.
  destruct picked as [file|].
  2:{ left. exists (error st). split; [destruct st; reflexivity|left; reflexivity]. }
  destruct (accepted decode file) eqn:Ha.
  - right. unfold accepted in Ha.
    apply andb_prop in Ha. destruct Ha as [Ha Hd].
    apply andb_prop in Ha. destruct Ha as [Ht Hs].
    apply Z.leb_le in Hs.
    destruct (decode file) as [[w h]|] eqn:Hdec; [|discriminate Hd].
    rewrite (AdminFacts.handleImageChange_accepted decode toDataURL file w h st Ht Hs Hdec).
    destruct (Resize.canvasSize w h) as [cw ch].
    exists file, (toDataURL file cw ch "image/jpeg" Resize.JPEG_QUALITY).
    split; [reflexivity|]. split; [|reflexivity].
    unfold accepted. rewrite Ht, Hdec.
    rewrite (proj2 (Z.leb_le _ _) Hs). reflexivity.
  - left.
    destruct (AdminFacts.handleImageChange_rejected decode toDataURL file st Ha)
      as (msg & log & ->).
    eexists. split; [reflexivity|right; eexists; reflexivity].
Qed.

(** [handleSubmit] is its part up to the [await], followed, when a request
    was made, by its part after the answer. *)
Lemma handleSubmit_phases saved st :
  handleSubmit numberToString saved st
  = if existsb isRequest (snd (Paths.submitUntilAwait numberToString st))
    then (Paths.submitUntilAwait numberToString ;; Paths.submitAfterAwait saved) st
    else Paths.submitUntilAwait numberToString st.
Proof.
  unfold seq at 1. unfold handleSubmit, Paths.submitUntilAwait,
    Paths.submitAfterAwait. cbv beta.
  destruct (negb (truthy (name (formData st)))
            || negb (truthy (description (formData st)))
            || negb (truthy (price (formData st)))
            || negb (truthy (category (formData st)))); [reflexivity|].
  destruct (negb (truthy (imageData (image (formData st))))); [reflexivity|].
  destruct (image (formData st)) as [img|]; [|reflexivity].
  cbn [send_price send_stock].
  destruct (isNaN (Num.or_else (parseFloat numberToString (price (formData st))) (ofZ 0))
            || le (Num.or_else (parseFloat numberToString (price (formData st))) (ofZ 0)) (ofZ 0));
    [reflexivity|].
  destruct (isNaN (Num.or_else (parseInt numberToString (stock (formData st))) (ofZ 0))
            || lt (Num.or_else (parseInt numberToString (stock (formData st))) (ofZ 0)) (ofZ 0));
    [reflexivity|].
  destruct saved, (editingProduct st); reflexivity.
Qed.

(** Up to the [await] a submission that makes a request changes nothing:
    its only effect is the request. *)
Lemma submitUntilAwait_request st req :
  In req (snd (Paths.submitUntilAwait numberToString st)) ->
  isRequest req = true ->
  Paths.submitUntilAwait numberToString st = (st, [req]).
Proof.
  unfold Paths.submitUntilAwait.
  destruct (negb (truthy (name (formData st)))
            || negb (truthy (description (formData st)))
            || negb (truthy (price (formData st)))
            || negb (truthy (category (formData st)))).
  { intros [<-|[]] H. discriminate H. }
  destruct (negb (truthy (imageData (image (formData st))))).
  { intros [<-|[]] H. discriminate H. }
  destruct (image (formData st)) as [img|].
  2:{ intros [<-|[<-|[]]] H; discriminate H. }
  cbn [send_price send_stock].
  destruct (isNaN (Num.or_else (parseFloat numberToString (price (formData st))) (ofZ 0))
            || le (Num.or_else (parseFloat numberToString (price (formData st))) (ofZ 0)) (ofZ 0)).
  { intros [<-|[]] H. discriminate H. }
  destruct (isNaN (Num.or_else (parseInt numberToString (stock (formData st))) (ofZ 0))
            || lt (Num.or_else (parseInt numberToString (stock (formData st))) (ofZ 0)) (ofZ 0)).
  { intros [<-|[]] H. discriminate H. }
  destruct (editingProduct st); intros [<-|[]] _; reflexivity.
Qed.

(** A property of states that every handler keeps is kept along every
    run. *)
Lemma after_invariant (P : State -> Prop) :
  (forall ev st, P st -> P (fst (handle numberToString decode toDataURL ev st))) ->
  forall evs st, P st -> P (after numberToString decode toDataURL evs st).
Proof.
  intros Hstep evs. induction evs as [|ev evs IH]; intros st H; [exact H|].
  simpl after. apply IH. apply Hstep. exact H.
Qed.

End Browser.

End AdminMore.

Section MoreClaims.

Variable numberToString : number -> string.
Variable decode : File -> option (Z * Z).
Variable toDataURL : File -> Z -> Z -> string -> number -> string.

(** X4.  Whatever [handleSubmit] sends was validated: a create or update
    request carries a name, a description and a category that are not
    empty, a price above 0, a stock that is at least 0, an image with
    data, and the name as the alternative text of the image.  A submission
    never deletes and never fetches the list by itself. *)
Theorem X4_requests_carry_validated_data saved st req :
  In req (snd (handleSubmit numberToString saved st)) ->
  match req with
  | CreateProduct d | UpdateProduct _ d =>
      truthy (send_name d) = true /\
      truthy (send_description d) = true /\
      truthy (send_category d) = true /\
      gt (send_price d) (ofZ 0) = true /\
      le (ofZ 0) (send_stock d) = true /\
      truthy (data (send_image d)) = true /\
      alt (send_image d) = send_name d
  | DeleteProduct _ | GetAllProducts => False
  | _ => True
  end.
Proof.
  intros Hin. destruct (isRequest req) eqn:Hr.
  - destruct (AdminMore.handleSubmit_request numberToString saved st req Hin Hr)
      as (img & d & _ & E & Ed & Hf & Hd & Hp & Hs).
    apply andb_prop in Hf. destruct Hf as [Hf H4].
    apply andb_prop in Hf. destruct Hf as [Hf H3].
    apply andb_prop in Hf. destruct Hf as [H1 H2].
    assert (G : truthy (send_name d) = true /\
                truthy (send_description d) = true /\
                truthy (send_category d) = true /\
                gt (send_price d) (ofZ 0) = true /\
                le (ofZ 0) (send_stock d) = true /\
                truthy (data (send_image d)) = true /\
                alt (send_image d) = send_name d).
    { rewrite Ed in Hp, Hs |- *. cbn [send_name send_description send_category
        send_image data alt]. repeat split; assumption. }
    rewrite E. destruct (editingProduct st); exact G.
  - destruct req; try discriminate Hr; exact I.
Qed.

(** X5.  A submission sends at most one create or update request: an
    update exactly when a product is being edited, addressed to the id of
    that product, and a creation when none is, as the submit button says.
    It calls [fetchProducts] exactly when that request was sent and
    succeeded; the first effect of [fetchProducts] is the list request. *)
Theorem X5_update_goes_to_the_edited_product saved st :
  let log := snd (handleSubmit numberToString saved st) in
  (forall d, In (CreateProduct d) log ->
     editingProduct st = None /\ View.submitLabel st = "Add Product") /\
  (forall id d, In (UpdateProduct id d) log ->
     exists p, editingProduct st = Some p /\ id = _id p /\
               View.submitLabel st = "Update Product") /\
  (List.length (filter Paths.isSave log) <= 1)%nat /\
  (In FetchProductsCalled log <->
   saved = true /\ exists e, In e log /\ Paths.isSave e = true) /\
  (forall res st', hd_error (snd (fetchProducts res st')) = Some GetAllProducts).
Proof.
  intros log. unfold log. split; [|split; [|split; [|split]]].
  - intros d Hin.
    destruct (AdminMore.handleSubmit_request numberToString saved st _ Hin eq_refl)
      as (img & d' & _ & E & _).
    unfold View.submitLabel.
    destruct (editingProduct st); [discriminate E|split; reflexivity].
  - intros id d Hin.
    destruct (AdminMore.handleSubmit_request numberToString saved st _ Hin eq_refl)
      as (img & d' & _ & E & _).
    unfold View.submitLabel.
    destruct (editingProduct st) as [p|]; [|discriminate E].
    injection E as -> _. exists p. repeat split.
  - destruct (AdminFacts.handleSubmit_outcome numberToString saved st)
      as [(m & -> & _)|[(req & Hreq & _ & E)|(req & st' & Hreq & _ & E)]];
      rewrite ?E; simpl; [lia| |]; destruct (Paths.isSave req); simpl; lia.
  - destruct (AdminFacts.handleSubmit_outcome numberToString saved st)
      as [(m & E & _)|[(req & Hreq & Hs & E)|(req & st' & Hreq & Hs & E)]].
    + rewrite E. simpl. split.
      * intros [H|[]]. discriminate H.
      * intros (_ & e & [<-|[]] & H). discriminate H.
    + rewrite E. simpl. split.
      * intros [H|[H|[H|[]]]]; try discriminate H.
        subst req. discriminate Hreq.
      * intros (H & _). rewrite Hs in H. discriminate H.
    + assert (Hin : In req (snd (handleSubmit numberToString saved st)))
        by (rewrite E; left; reflexivity).
      destruct (AdminMore.handleSubmit_request numberToString saved st req Hin Hreq)
        as (img & d & _ & Er & _).
      rewrite E. simpl. split.
      * intros _. split; [exact Hs|]. exists req. split; [left; reflexivity|].
        rewrite Er. destruct (editingProduct st); reflexivity.
      * intros _. right. right. left. reflexivity.
  - intros res st'. destruct res; reflexivity.
Qed.

(** X6.  While a submission waits for the answer to its request the state
    is as it was before the click, so a second click at that moment sends
    the same request again.  The whole handler is the part up to the
    [await] followed by the part after the answer; once a save has been
    answered with success the form is the reset one (category "men",
    stock "0", no image), the message is gone, no product is being edited
    and the dialog is closed, and a submission from there sends nothing:
    it is answered "Please fill in all required fields". *)
Theorem X6_form_is_reset_only_after_the_answer saved st req :
  In req (snd (Paths.submitUntilAwait numberToString st)) ->
  isRequest req = true ->
  fst (Paths.submitUntilAwait numberToString st) = st /\
  snd (Paths.submitUntilAwait numberToString
         (fst (Paths.submitUntilAwait numberToString st))) = [req] /\
  handleSubmit numberToString saved st
  = (Paths.submitUntilAwait numberToString ;; Paths.submitAfterAwait saved) st /\
  let st' := fst (handleSubmit numberToString true st) in
  formData st' = savedForm /\ error st' = None /\
  editingProduct st' = None /\ openDialog st' = false /\
  products st' = products st /\
  forall saved',
    handleSubmit numberToString saved' st'
    = setError (Some "Please fill in all required fields") st'.
Proof.
  intros Hin Hr.
  pose proof (AdminMore.submitUntilAwait_request numberToString st req Hin Hr) as E.
  split; [rewrite E; reflexivity|].
  split; [rewrite E; cbn [fst]; rewrite E; reflexivity|].
  assert (P : forall sv,
             handleSubmit numberToString sv st
             = (Paths.submitUntilAwait numberToString ;; Paths.submitAfterAwait sv) st).
  { intros sv. rewrite AdminMore.handleSubmit_phases, E. cbn [snd existsb].
    rewrite Hr. reflexivity. }
  split; [apply P|].
  rewrite (P true). unfold seq. rewrite E.
  cbn [fst Paths.submitAfterAwait].
  split; [reflexivity|]. split; [reflexivity|]. split; [reflexivity|].
  split; [reflexivity|]. split; [reflexivity|]. intros saved'.
  rewrite AdminFacts.handleSubmit_without_image by reflexivity. reflexivity.
Qed.

(** X7.  Typing into a named input sets that field to the text typed and
    nothing else: the other fields, the image, the list, the message, the
    product being edited and the dialog are as before, and nothing happens
    outside.  So the last text typed into a field wins, and what is typed
    into two different fields does not depend on the order. *)
Theorem X7_input_change_sets_one_field f v st :
  let r := handleInputChange f v st in
  View.fieldValue f (formData (fst r)) = VStr v /\
  (forall g, g <> f ->
     View.fieldValue g (formData (fst r)) = View.fieldValue g (formData st)) /\
  image (formData (fst r)) = image (formData st) /\
  products (fst r) = products st /\ error (fst r) = error st /\
  editingProduct (fst r) = editingProduct st /\
  openDialog (fst r) = openDialog st /\
  snd r = [] /\
  (forall v', fst (handleInputChange f v' (fst r))
              = fst (handleInputChange f v' st)) /\
  (forall g u, g <> f ->
     fst (handleInputChange g u (fst r))
     = fst (handleInputChange f v (fst (handleInputChange g u st)))).
Proof.
  intros r. unfold r.
  split; [destruct f; reflexivity|].
  split; [intros g Hg; destruct f, g; try reflexivity; contradiction|].
  repeat split.
  - destruct f; reflexivity.
  - intros v'. destruct f; reflexivity.
  - intros g u Hg. destruct f, g; try reflexivity; contradiction.
Qed.

(** X8.  The list of products changes only when a run of [fetchProducts]
    succeeds, and is then the list received: a create, an update or a
    delete never touches the list shown, whatever its outcome, before the
    refresh that follows has answered. *)
Theorem X8_products_change_only_on_refresh ev st :
  let st' := fst (handle numberToString decode toDataURL ev st) in
  (forall data, ev = Refreshed (Some data) -> products st' = data) /\
  ((forall data, ev <> Refreshed (Some data)) -> products st' = products st).
Proof.
  intros st'. unfold st'. split.
  - intros data ->. reflexivity.
  - intros Hne.
    destruct ev as [f v|picked|saved|res|pid c d|p| |]; simpl handle.
    + destruct f; reflexivity.
    + destruct (AdminMore.handleImageChange_state decode toDataURL picked st)
        as [(m & -> & _)|(file & url & _ & _ & ->)]; reflexivity.
    + destruct (AdminMore.handleSubmit_state numberToString saved st)
        as [(m & -> & _)|(_ & _ & ->)]; reflexivity.
    + destruct res as [data|]; [exfalso; exact (Hne data eq_refl)|reflexivity].
    + destruct c; [destruct d|]; reflexivity.
    + reflexivity.
    + reflexivity.
    + reflexivity.
Qed.

(** X9.  An error message that is displayed goes away only when a picked
    file is accepted or when a save succeeds.  Nothing else clears it:
    not typing, not a refresh that succeeds, not a delete that succeeds,
    not closing or opening the dialog. *)
Theorem X9_error_cleared_only_by_accepted_file_or_save ev st m :
  error st = Some m ->
  error (fst (handle numberToString decode toDataURL ev st)) = None ->
  (exists file, ev = FilePicked (Some file) /\ accepted decode file = true) \/
  (ev = Submitted true /\
   exists req, In req (snd (handle numberToString decode toDataURL ev st))
               /\ isRequest req = true).
Proof.
  intros He.
  destruct ev as [f v|picked|saved|res|pid c d|p| |]; simpl handle.
  - destruct f; simpl; rewrite He; discriminate.
  - destruct (AdminMore.handleImageChange_state decode toDataURL picked st)
      as [(m' & -> & [->|[msg ->]])|(file & url & -> & Ha & _)].
    + simpl. rewrite He. discriminate.
    + simpl. discriminate.
    + intros _. left. exists file. split; [reflexivity|exact Ha].
  - destruct (AdminMore.handleSubmit_state numberToString saved st)
      as [(msg & -> & _)|(-> & Hreq & _)].
    + simpl. discriminate.
    + intros _. right. split; [reflexivity|exact Hreq].
  - destruct res as [data|]; simpl; [rewrite He|]; discriminate.
  - destruct c; [destruct d|]; simpl; try rewrite He; discriminate.
  - simpl. rewrite He. discriminate.
  - simpl. rewrite He. discriminate.
  - simpl. rewrite He. discriminate.
Qed.

(** X10.  Along every run from the initial state, whenever the dialog is
    closed no product is being edited.  So the button "Add New Product"
    always opens the dialog for a creation: its title is "Add New Product"
    and a submission from it creates. *)
Theorem X10_closed_dialog_is_not_editing evs :
  let st := after numberToString decode toDataURL evs initialState in
  openDialog st = false ->
  editingProduct st = None /\
  editingProduct (fst (openAddDialog st)) = None /\
  View.dialogTitle (fst (openAddDialog st)) = "Add New Product".
Proof.
  intros st Hclosed.
  assert (Inv : openDialog st = false -> editingProduct st = None).
  { unfold st.
    apply (AdminMore.after_invariant numberToString decode toDataURL
             (fun s => openDialog s = false -> editingProduct s = None));
      [|reflexivity].
    intros ev s IH.
    destruct ev as [f v|picked|saved|res|pid c d|p| |]; simpl handle.
    - destruct f; exact IH.
    - destruct (AdminMore.handleImageChange_state decode toDataURL picked s)
        as [(m' & -> & _)|(file & url & _ & _ & ->)]; exact IH.
    - destruct (AdminMore.handleSubmit_state numberToString saved s)
        as [(msg & -> & _)|(_ & _ & ->)]; [exact IH|reflexivity].
    - destruct res; exact IH.
    - destruct c; [destruct d|]; exact IH.
    - simpl. discriminate.
    - simpl. discriminate.
    - reflexivity. }
  specialize (Inv Hclosed).
  split; [exact Inv|]. unfold View.dialogTitle. simpl. rewrite Inv.
  split; reflexivity.
Qed.

(** X11.  Along every run from the initial state the image held by the
    form, if any, has the content type "image/jpeg"; so has the image of
    every request ever sent. *)
Theorem X11_every_image_sent_is_jpeg evs saved req :
  let st := after numberToString decode toDataURL evs initialState in
  In req (snd (handleSubmit numberToString saved st)) ->
  (forall img, image (formData st) = Some img ->
               contentType img = "image/jpeg") /\
  match req with
  | CreateProduct d | UpdateProduct _ d =>
      contentType (send_image d) = "image/jpeg"
  | _ => True
  end.
Proof.
  intros st Hin.
  assert (Inv : forall img, image (formData st) = Some img ->
                            contentType img = "image/jpeg").
  { unfold st.
    apply (AdminMore.after_invariant numberToString decode toDataURL
             (fun s => forall img, image (formData s) = Some img ->
                                   contentType img = "image/jpeg"));
      [|intros img H; discriminate H].
    intros ev s IH.
    destruct ev as [f v|picked|sv|res|pid c d|p| |]; simpl handle.
    - destruct f; exact IH.
    - destruct (AdminMore.handleImageChange_state decode toDataURL picked s)
        as [(m' & -> & _)|(file & url & _ & _ & ->)]; [exact IH|].
      intros img H. injection H as <-. reflexivity.
    - destruct (AdminMore.handleSubmit_state numberToString sv s)
        as [(msg & -> & _)|(_ & _ & ->)];
        [exact IH|intros img H; discriminate H].
    - destruct res; exact IH.
    - destruct c; [destruct d|]; exact IH.
    - intros img H. discriminate H.
    - exact IH.
    - intros img H. discriminate H. }
  split; [exact Inv|].
  destruct (isRequest req) eqn:Hr.
  - destruct (AdminMore.handleSubmit_request numberToString saved st req Hin Hr)
      as (img & d & Hi & E & Ed & _).
    rewrite E, Ed. destruct (editingProduct st); exact (Inv img Hi).
  - destruct req; try discriminate Hr; exact I.
Qed.

End MoreClaims.

Section PickedImage.

Variable numberToString : number -> string.
Variable decode : File -> option (Z * Z).
Variable toDataURL : File -> Z -> Z -> string -> number -> string.

(** X12.  From the file to the card: when the encoder answers an accepted
    file with a JPEG data URL, a product stored with the image that the
    following submission sends is shown with exactly that data URL as the
    source of its picture, and with the name sent as alternative text. *)
Theorem X12_card_shows_the_picked_image st file w h b64 saved req d p :
  startsWith (file_type file) "image/" = true ->
  file_size file <= 5242880 ->
  decode file = Some (w, h) ->
  isBase64 b64 = true -> b64 <> EmptyString ->
  toDataURL file (fst (Resize.canvasSize w h)) (snd (Resize.canvasSize w h))
    "image/jpeg" Resize.JPEG_QUALITY
  = "data:image/jpeg;base64," ++ b64 ->
  In req (snd (handleSubmit numberToString saved
                 (fst (handleImageChange decode toDataURL (Some file) st)))) ->
  req = CreateProduct d \/ (exists id, req = UpdateProduct id d) ->
  product_image p = Some (send_image d) ->
  View.cardImage numberToString p = "data:image/jpeg;base64," ++ b64 /\
  View.cardAlt p = send_name d.
Proof.
  intros Ht Hs Hd Hb Hne Hurl Hin Hreq Hp.
  rewrite (AdminFacts.handleImageChange_accepted decode toDataURL file w h st Ht Hs Hd)
    in Hin.
  destruct (Resize.canvasSize w h) as [cw ch]. cbn [fst snd] in Hurl, Hin.
  rewrite Hurl, (AdminFacts.split_jpeg_url b64 Hb) in Hin.
  assert (Hr : isRequest req = true)
    by (destruct Hreq as [->|[id ->]]; reflexivity).
  destruct (AdminMore.handleSubmit_request numberToString saved _ req Hin Hr)
    as (img & d' & Hi & E & Ed & Hf & _).
  cbn [formData image name description price category stock editingProduct] in Hi, E, Ed, Hf.
  injection Hi as <-.
  assert (Edd : d = d').
  { destruct Hreq as [->|[id ->]]; destruct (editingProduct st);
      try discriminate E; injection E; auto. }
  rewrite <- Edd in Ed. clear Edd E.
  apply andb_prop in Hf. destruct Hf as [Hf _].
  apply andb_prop in Hf. destruct Hf as [Hf _].
  apply andb_prop in Hf. destruct Hf as [Hname _].
  assert (Hdata : truthy (VStr b64) = true).
  { simpl. destruct (String.eqb_spec b64 EmptyString); [contradiction|reflexivity]. }
  unfold View.cardImage, View.cardAlt. rewrite Hp, Ed.
  cbn [send_image data contentType alt send_name toString].
  rewrite Hdata. split; [reflexivity|].
  unfold or_else. rewrite Hname. reflexivity.
Qed.

(** X13.  An accepted file whose data URL has nothing after its first
    comma (what a canvas without pixels is encoded to) is stored all the
    same and clears the message, but no submission goes through with it:
    none makes a request, and one with the required fields filled in is
    answered "Please select an image". *)
Theorem X13_image_without_data_blocks_submission st file w h :
  startsWith (file_type file) "image/" = true ->
  file_size file <= 5242880 ->
  decode file = Some (w, h) ->
  truthy (index (split ","
            (toDataURL file (fst (Resize.canvasSize w h))
               (snd (Resize.canvasSize w h)) "image/jpeg" Resize.JPEG_QUALITY)) 1)
  = false ->
  let st1 := fst (handleImageChange decode toDataURL (Some file) st) in
  error st1 = None /\ image (formData st1) <> None /\
  forall saved,
    (forall e, In e (snd (handleSubmit numberToString saved st1)) ->
               isRequest e = false) /\
    (truthy (name (formData st)) && truthy (description (formData st))
       && truthy (price (formData st)) && truthy (category (formData st)) = true ->
     handleSubmit numberToString saved st1
     = setError (Some "Please select an image") st1).
Proof.
  intros Ht Hs Hd Hempty st1. unfold st1.
  rewrite (AdminFacts.handleImageChange_accepted decode toDataURL file w h st Ht Hs Hd).
  destruct (Resize.canvasSize w h) as [cw ch]. cbn [fst snd] in Hempty |- *.
  cbn [error formData image].
  split; [reflexivity|]. split; [discriminate|].
  intros saved. split.
  - intros e Hin. destruct (isRequest e) eqn:Hr; [|reflexivity].
    destruct (AdminMore.handleSubmit_request numberToString saved _ e Hin Hr)
      as (img & d & Hi & _ & _ & _ & Hdata & _).
    cbn [formData image] in Hi. injection Hi as <-.
    cbn [data] in Hdata. rewrite Hempty in Hdata. discriminate Hdata.
  - intros Hf. unfold handleSubmit.
    cbn [formData image name description price category imageData data].
    apply andb_prop in Hf. destruct Hf as [Hf H4].
    apply andb_prop in Hf. destruct Hf as [Hf H3].
    apply andb_prop in Hf. destruct Hf as [H1 H2].
    rewrite H1, H2, H3, H4, Hempty. reflexivity.
Qed.

(** X14.  The way an edit goes through: after [handleEdit] on a product
    whose name, description, price and category are filled in, whose price
    reads as a positive Number and whose stock reads as NaN or as a Number
    that is at least 0, picking an accepted file that is encoded to a JPEG
    data URL and submitting sends one update, to the id of the product,
    carrying its own fields and the new image, and then asks for the
    list. *)
Theorem X14_edit_pick_submit_updates_the_product p st file w h b64 :
  startsWith (file_type file) "image/" = true ->
  file_size file <= 5242880 ->
  decode file = Some (w, h) ->
  isBase64 b64 = true -> b64 <> EmptyString ->
  toDataURL file (fst (Resize.canvasSize w h)) (snd (Resize.canvasSize w h))
    "image/jpeg" Resize.JPEG_QUALITY
  = "data:image/jpeg;base64," ++ b64 ->
  truthy (product_name p) && truthy (product_description p)
    && truthy (product_price p) && truthy (product_category p) = true ->
  gt (parseFloat numberToString (product_price p)) (ofZ 0) = true ->
  isNaN (parseInt numberToString (product_stock p)) = true
  \/ le (ofZ 0) (parseInt numberToString (product_stock p)) = true ->
  snd (handleSubmit numberToString true
         (fst (handleImageChange decode toDataURL (Some file)
                 (fst (handleEdit p st)))))
  = [UpdateProduct (_id p)
       {| send_name := product_name p;
          send_description := product_description p;
          send_price := parseFloat numberToString (product_price p);
          send_category := product_category p;
          send_stock :=
            Num.or_else (parseInt numberToString (product_stock p)) (ofZ 0);
          send_image := {| data := VStr b64; contentType := "image/jpeg";
                           alt := product_name p |} |};
     SetError None; FetchProductsCalled].
Proof.
  intros Ht Hs Hd Hb Hne Hurl Hf Hprice Hstock.
  rewrite (AdminFacts.handleImageChange_accepted decode toDataURL file w h _ Ht Hs Hd).
  destruct (Resize.canvasSize w h) as [cw ch]. cbn [fst snd] in Hurl |- *.
  rewrite Hurl, (AdminFacts.split_jpeg_url b64 Hb).
  apply andb_prop in Hf. destruct Hf as [Hf H4].
  apply andb_prop in Hf. destruct Hf as [Hf H3].
  apply andb_prop in Hf. destruct Hf as [H1 H2].
  assert (Hdata : truthy (VStr b64) = true).
  { simpl. destruct (String.eqb_spec b64 EmptyString); [contradiction|reflexivity]. }
  destruct (AdminMore.price_passes _ Hprice) as [Ep Cp].
  pose proof (AdminMore.stock_passes _ Hstock) as Cs.
  unfold handleSubmit, handleEdit.
  cbn [seq setEditingProduct setFormData setOpenDialog fst snd formData image
       name description price category stock editingProduct imageData data
       contentType].
  rewrite H1, H2, H3, H4, Hdata. cbn [negb orb].
  cbn [send_price send_stock]. rewrite Cp, Cs, Ep. reflexivity.
Qed.

End PickedImage.

Section Sending.

Variable numberToString : number -> string.
Variable decode : File -> option (Z * Z).
Variable toDataURL : File -> Z -> Z -> string -> number -> string.

(** X15.  Once a run of [fetchProducts] has ended, with the list or with
    a failure, [loading] is false, and it stays false whatever happens
    afterwards. *)
Theorem X15_loading_ends_with_the_first_refresh res evs st :
  loading (after numberToString decode toDataURL (Refreshed res :: evs) st)
  = false.
Proof.
  simpl after.
  apply (AdminMore.after_invariant numberToString decode toDataURL
           (fun s => loading s = false)).
  - intros ev s IH.
    destruct ev as [f v|picked|saved|r|pid c d|p| |]; simpl handle.
    + destruct f; exact IH.
    + destruct (AdminMore.handleImageChange_state decode toDataURL picked s)
        as [(m' & -> & _)|(file & url & _ & _ & ->)]; exact IH.
    + destruct (AdminMore.handleSubmit_state numberToString saved s)
        as [(msg & -> & _)|(_ & _ & ->)]; exact IH.
    + destruct r; reflexivity.
    + destruct c; [destruct d|]; exact IH.
    + exact IH.
    + exact IH.
    + exact IH.
  - destruct res; reflexivity.
Qed.

(** X16.  In a request the price is what [parseFloat] reads in the price
    field, never the fallback 0; the stock is what [parseInt] reads in the
    stock field, or 0 when that is NaN or a zero. *)
Theorem X16_price_and_stock_sent saved st req :
  In req (snd (handleSubmit numberToString saved st)) ->
  match req with
  | CreateProduct d | UpdateProduct _ d =>
      send_price d = parseFloat numberToString (price (formData st)) /\
      (send_stock d = parseInt numberToString (stock (formData st)) \/
       send_stock d = ofZ 0 /\
       Num.truthy (parseInt numberToString (stock (formData st))) = false)
  | _ => True
  end.
Proof.
  intros Hin. destruct (isRequest req) eqn:Hr.
  - destruct (AdminMore.handleSubmit_request numberToString saved st req Hin Hr)
      as (img & d & _ & E & Ed & _).
    assert (G : send_price d = parseFloat numberToString (price (formData st)) /\
                (send_stock d = parseInt numberToString (stock (formData st)) \/
                 send_stock d = ofZ 0 /\
                 Num.truthy (parseInt numberToString (stock (formData st))) = false)).
    { rewrite Ed. cbn [send_price send_stock]. split; [reflexivity|].
      unfold Num.or_else.
      destruct (Num.truthy (parseInt numberToString (stock (formData st))));
        [left; reflexivity|right; split; reflexivity]. }
    rewrite E. destruct (editingProduct st); exact G.
  - destruct req; try discriminate Hr; exact I.
Qed.

End Sending.

(** ** The further properties on concrete inputs *)

Lemma X1_witness :
  (0 <= 1600 < 2 ^ 32) /\ (0 <= 1200 < 2 ^ 32) /\
  Resize.canvasSize (fst (Resize.canvasSize 1600 1200))
    (snd (Resize.canvasSize 1600 1200))
  = (fst (Resize.canvasSize 1600 1200), snd (Resize.canvasSize 1600 1200)).
Proof.
  split; [lia|]. split; [lia|].
  destruct (X1_canvas_never_enlarges_and_is_stable 1600 1200) as (_ & _ & H);
    [lia|lia|exact H].
Defined.

Lemma X2_witness :
  (0 <= 1600 < 2 ^ 32) /\ (0 <= 1200 < 2 ^ 32) /\ 1600 <> 1200 /\
  Resize.canvasSize 1200 1600
  = (snd (Resize.canvasSize 1600 1200), fst (Resize.canvasSize 1600 1200)).
Proof.
  split; [lia|]. split; [lia|]. split; [lia|].
  apply (X2_canvas_of_rotated_image 1600 1200); lia.
Defined.

Lemma X3_witness :
  (0 < 10000 < 2 ^ 32) /\ (0 < 1 < 2 ^ 32) /\ 800 * 1 < 10000 /\
  snd (Resize.canvasSize 10000 1) = 0.
Proof.
  split; [lia|]. split; [lia|]. split; [lia|].
  destruct (X3_canvas_side_vanishes_only_for_elongated_images 10000 1)
    as (H & _); [lia|lia|]. apply H. lia.
Defined.

Lemma X4_witness :
  In (hd GetAllProducts
        (snd (handleSubmit Sample.numberToString true
                (Sample.withForm (Sample.shirtForm "19.99" "5")))))
     (snd (handleSubmit Sample.numberToString true
             (Sample.withForm (Sample.shirtForm "19.99" "5")))) /\
  match hd GetAllProducts
          (snd (handleSubmit Sample.numberToString true
                  (Sample.withForm (Sample.shirtForm "19.99" "5")))) with
  | CreateProduct d | UpdateProduct _ d =>
      truthy (send_name d) = true /\
      truthy (send_description d) = true /\
      truthy (send_category d) = true /\
      gt (send_price d) (ofZ 0) = true /\
      le (ofZ 0) (send_stock d) = true /\
      truthy (data (send_image d)) = true /\
      alt (send_image d) = send_name d
  | DeleteProduct _ | GetAllProducts => False
  | _ => True
  end.
Proof.
  split; [vm_compute; left; reflexivity|].
  apply (X4_requests_carry_validated_data Sample.numberToString true
           (Sample.withForm (Sample.shirtForm "19.99" "5"))).
  vm_compute. left. reflexivity.
Defined.

Lemma X6_witness :
  In (hd GetAllProducts
        (snd (Paths.submitUntilAwait Sample.numberToString
                (Sample.withForm (Sample.shirtForm "19.99" "5")))))
     (snd (Paths.submitUntilAwait Sample.numberToString
             (Sample.withForm (Sample.shirtForm "19.99" "5")))) /\
  isRequest (hd GetAllProducts
               (snd (Paths.submitUntilAwait Sample.numberToString
                       (Sample.withForm (Sample.shirtForm "19.99" "5")))))
  = true /\
  fst (Paths.submitUntilAwait Sample.numberToString
         (Sample.withForm (Sample.shirtForm "19.99" "5")))
  = Sample.withForm (Sample.shirtForm "19.99" "5").
Proof.
  split; [vm_compute; left; reflexivity|]. split; [reflexivity|].
  destruct (X6_form_is_reset_only_after_the_answer Sample.numberToString true
              (Sample.withForm (Sample.shirtForm "19.99" "5"))
              (hd GetAllProducts
                 (snd (Paths.submitUntilAwait Sample.numberToString
                         (Sample.withForm (Sample.shirtForm "19.99" "5"))))))
    as (H & _); [vm_compute; left; reflexivity|reflexivity|exact H].
Defined.

Lemma X9_witness :
  error (fst (setError (Some "Failed to load products")
                (Sample.withForm (Sample.shirtForm "19.99" "5"))))
  = Some "Failed to load products" /\
  error (fst (handle Sample.numberToString Sample.decode Sample.toDataURL
                (Submitted true)
                (fst (setError (Some "Failed to load products")
                        (Sample.withForm (Sample.shirtForm "19.99" "5"))))))
  = None /\
  ((exists file,
      Submitted true = FilePicked (Some file)
      /\ accepted Sample.decode file = true) \/
   (Submitted true = Submitted true /\
    exists req,
      In req (snd (handle Sample.numberToString Sample.decode Sample.toDataURL
                     (Submitted true)
                     (fst (setError (Some "Failed to load products")
                             (Sample.withForm (Sample.shirtForm "19.99" "5"))))))
      /\ isRequest req = true)).
Proof.
  split; [reflexivity|]. split; [reflexivity|].
  apply (X9_error_cleared_only_by_accepted_file_or_save Sample.numberToString
           Sample.decode Sample.toDataURL (Submitted true)
           (fst (setError (Some "Failed to load products")
                   (Sample.withForm (Sample.shirtForm "19.99" "5"))))
           "Failed to load products"); reflexivity.
Defined.

Lemma X10_witness :
  openDialog (after Sample.numberToString Sample.decode Sample.toDataURL
                [EditClicked Sample.shirt; InputChanged FPrice "25"; DialogClosed]
                initialState) = false /\
  editingProduct (after Sample.numberToString Sample.decode Sample.toDataURL
                    [EditClicked Sample.shirt; InputChanged FPrice "25";
                     DialogClosed]
                    initialState) = None.
Proof.
  split; [reflexivity|].
  destruct (X10_closed_dialog_is_not_editing Sample.numberToString
              Sample.decode Sample.toDataURL
              [EditClicked Sample.shirt; InputChanged FPrice "25"; DialogClosed])
    as (H & _); [reflexivity|exact H].
Defined.

Lemma X11_witness :
  In (hd GetAllProducts
        (snd (handleSubmit Sample.numberToString true
                (after Sample.numberToString Sample.decode Sample.toDataURL
                   [EditClicked Sample.shirt; FilePicked (Some Sample.photo)]
                   initialState))))
     (snd (handleSubmit Sample.numberToString true
             (after Sample.numberToString Sample.decode Sample.toDataURL
                [EditClicked Sample.shirt; FilePicked (Some Sample.photo)]
                initialState))) /\
  match hd GetAllProducts
          (snd (handleSubmit Sample.numberToString true
                  (after Sample.numberToString Sample.decode Sample.toDataURL
                     [EditClicked Sample.shirt; FilePicked (Some Sample.photo)]
                     initialState))) with
  | CreateProduct d | UpdateProduct _ d =>
      contentType (send_image d) = "image/jpeg"
  | _ => True
  end.
Proof.
  split; [vm_compute; left; reflexivity|].
  apply (X11_every_image_sent_is_jpeg Sample.numberToString Sample.decode
           Sample.toDataURL
           [EditClicked Sample.shirt; FilePicked (Some Sample.photo)] true).
  vm_compute. left. reflexivity.
Defined.

Lemma X12_witness :
  startsWith (file_type Sample.photo) "image/" = true /\
  file_size Sample.photo <= 5242880 /\
  Sample.decode Sample.photo = Some (1600, 1200) /\
  isBase64 "/9j/" = true /\ "/9j/" <> EmptyString /\
  View.cardImage Sample.numberToString
    {| _id := VStr "p7"; product_name := VStr "Shirt";
       product_description := VStr "Cotton shirt";
       product_price := VNum (ofDecimal false 1999 (-2));
       product_category := VStr "men"; product_stock := VNum (ofZ 5);
       product_image := Some {| data := VStr "/9j/";
                                contentType := "image/jpeg";
                                alt := VStr "Shirt" |} |}
  = "data:image/jpeg;base64,/9j/".
Proof.
  split; [reflexivity|]. split; [vm_compute; discriminate|].
  split; [reflexivity|]. split; [reflexivity|]. split; [discriminate|].
  destruct (X12_card_shows_the_picked_image Sample.numberToString
              Sample.decode Sample.toDataURL
              (Sample.withForm (Sample.shirtForm "19.99" "5")) Sample.photo
              1600 1200 "/9j/" true
              (CreateProduct
                 {| send_name := VStr "Shirt";
                    send_description := VStr "Cotton shirt";
                    send_price := ofDecimal false 1999 (-2);
                    send_category := VStr "men";
                    send_stock := ofZ 5;
                    send_image := {| data := VStr "/9j/";
                                     contentType := "image/jpeg";
                                     alt := VStr "Shirt" |} |})
              {| send_name := VStr "Shirt";
                 send_description := VStr "Cotton shirt";
                 send_price := ofDecimal false 1999 (-2);
                 send_category := VStr "men";
                 send_stock := ofZ 5;
                 send_image := {| data := VStr "/9j/";
                                  contentType := "image/jpeg";
                                  alt := VStr "Shirt" |} |}
              {| _id := VStr "p7"; product_name := VStr "Shirt";
                 product_description := VStr "Cotton shirt";
                 product_price := VNum (ofDecimal false 1999 (-2));
                 product_category := VStr "men"; product_stock := VNum (ofZ 5);
                 product_image := Some {| data := VStr "/9j/";
                                          contentType := "image/jpeg";
                                          alt := VStr "Shirt" |} |})
    as [H _];
    [reflexivity|vm_compute; discriminate|reflexivity|reflexivity|discriminate
    |vm_compute; reflexivity|vm_compute; left; reflexivity|left; reflexivity
    |reflexivity|exact H].
Defined.

Lemma X13_witness :
  Sample.decode {| file_type := "image/png"; file_size := 100;
                   file_bytes := "10000x1" |} = Some (10000, 1) /\
  Resize.canvasSize 10000 1 = (800, 0) /\
  handleSubmit Sample.numberToString true
    (fst (handleImageChange Sample.decode Sample.toDataURL
            (Some {| file_type := "image/png"; file_size := 100;
                     file_bytes := "10000x1" |})
            (Sample.withForm (Sample.shirtForm "19.99" "5"))))
  = setError (Some "Please select an image")
      (fst (handleImageChange Sample.decode Sample.toDataURL
              (Some {| file_type := "image/png"; file_size := 100;
                       file_bytes := "10000x1" |})
              (Sample.withForm (Sample.shirtForm "19.99" "5")))).
Proof.
  split; [reflexivity|]. split; [vm_compute; reflexivity|].
  destruct (X13_image_without_data_blocks_submission Sample.numberToString
              Sample.decode Sample.toDataURL
              (Sample.withForm (Sample.shirtForm "19.99" "5"))
              {| file_type := "image/png"; file_size := 100;
                 file_bytes := "10000x1" |} 10000 1)
    as (_ & _ & H);
    [reflexivity|vm_compute; discriminate|reflexivity|vm_compute; reflexivity|].
  apply (H true). reflexivity.
Defined.

Lemma X14_witness :
  gt (parseFloat Sample.numberToString (product_price Sample.shirt)) (ofZ 0)
  = true /\
  le (ofZ 0) (parseInt Sample.numberToString (product_stock Sample.shirt))
  = true /\
  hd GetAllProducts
    (snd (handleSubmit Sample.numberToString true
            (fst (handleImageChange Sample.decode Sample.toDataURL
                    (Some Sample.photo)
                    (fst (handleEdit Sample.shirt initialState))))))
  = UpdateProduct (VStr "p1")
      {| send_name := VStr "Shirt";
         send_description := VStr "Cotton shirt";
         send_price := ofZ 20;
         send_category := VStr "men";
         send_stock := ofZ 3;
         send_image := {| data := VStr "/9j/"; contentType := "image/jpeg";
                          alt := VStr "Shirt" |} |}.
Proof.
  split; [reflexivity|]. split; [reflexivity|].
  rewrite (X14_edit_pick_submit_updates_the_product Sample.numberToString
             Sample.decode Sample.toDataURL Sample.shirt initialState
             Sample.photo 1600 1200 "/9j/");
    [reflexivity|reflexivity|vm_compute; discriminate|reflexivity|reflexivity
    |discriminate|reflexivity|reflexivity|reflexivity|right; reflexivity].
Defined.

Lemma X16_witness :
  In (hd GetAllProducts
        (snd (handleSubmit Sample.numberToString true
                (Sample.withForm (Sample.shirtForm "19.99" "abc")))))
     (snd (handleSubmit Sample.numberToString true
             (Sample.withForm (Sample.shirtForm "19.99" "abc")))) /\
  match hd GetAllProducts
          (snd (handleSubmit Sample.numberToString true
                  (Sample.withForm (Sample.shirtForm "19.99" "abc")))) with
  | CreateProduct d | UpdateProduct _ d =>
      send_price d = parseFloat Sample.numberToString (VStr "19.99") /\
      (send_stock d = parseInt Sample.numberToString (VStr "abc") \/
       send_stock d = ofZ 0 /\
       Num.truthy (parseInt Sample.numberToString (VStr "abc")) = false)
  | _ => True
  end.
Proof.
  split; [vm_compute; left; reflexivity|].
  apply (X16_price_and_stock_sent Sample.numberToString true
           (Sample.withForm (Sample.shirtForm "19.99" "abc"))).
  vm_compute. left. reflexivity.
Defined.

(** ** The amended claims *)

(** C4, as stated, fails for a price that is not a number but starts like
    one: [parseFloat] reads the longest numeric prefix, so "12abc" is
    read as 12 and "1,5" as 1, both pass the price check, and the product
    is created with that price. *)
Lemma C4_numeric_prefix_counterexample :
  parseFloat Sample.numberToString (VStr "12abc") = ofZ 12 /\
  snd (handleSubmit Sample.numberToString true
         (Sample.withForm (Sample.shirtForm "12abc" "5")))
  = [CreateProduct
       {| send_name := VStr "Shirt";
          send_description := VStr "Cotton shirt";
          send_price := ofZ 12;
          send_category := VStr "men";
          send_stock := ofZ 5;
          send_image := {| data := VStr "/9j/"; contentType := "image/jpeg";
                           alt := VStr "Shirt" |} |};
     SetError None; FetchProductsCalled] /\
  parseFloat Sample.numberToString (VStr "1,5") = ofZ 1 /\
  ~ (forall e,
       In e (snd (handleSubmit Sample.numberToString true
                    (Sample.withForm (Sample.shirtForm "1,5" "5")))) ->
       isRequest e = false).
Proof.
  split; [vm_compute; reflexivity|]. split; [vm_compute; reflexivity|].
  split; [vm_compute; reflexivity|].
  intros H.
  specialize (H (hd GetAllProducts
                   (snd (handleSubmit Sample.numberToString true
                           (Sample.withForm (Sample.shirtForm "1,5" "5")))))).
  vm_compute in H. specialize (H (or_introl eq_refl)). discriminate H.
Qed.


(** C7, as stated, fails for a price or a stock that is not a number and
    is let through: with the price "12abc", or with the stock "abc", the
    submission sets no error message at all, sends the product and resets
    the form. *)
Lemma C7_unreported_invalid_number_counterexample :
  filter isSetError
    (snd (handle Sample.numberToString Sample.decode Sample.toDataURL
            (Submitted true) (Sample.withForm (Sample.shirtForm "12abc" "5"))))
  = [SetError None] /\
  formData (fst (handle Sample.numberToString Sample.decode Sample.toDataURL
                   (Submitted true)
                   (Sample.withForm (Sample.shirtForm "12abc" "5"))))
  = savedForm /\
  filter isSetError
    (snd (handle Sample.numberToString Sample.decode Sample.toDataURL
            (Submitted true) (Sample.withForm (Sample.shirtForm "19.99" "abc"))))
  = [SetError None] /\
  formData (fst (handle Sample.numberToString Sample.decode Sample.toDataURL
                   (Submitted true)
                   (Sample.withForm (Sample.shirtForm "19.99" "abc"))))
  = savedForm /\
  savedForm <> Sample.shirtForm "12abc" "5" /\
  savedForm <> Sample.shirtForm "19.99" "abc".
Proof.
  split; [vm_compute; reflexivity|]. split; [vm_compute; reflexivity|].
  split; [vm_compute; reflexivity|]. split; [vm_compute; reflexivity|].
  split; discriminate.
Qed.

Section FailurePaths.

Variable numberToString : number -> string.
Variable decode : File -> option (Z * Z).
Variable toDataURL : File -> Z -> Z -> string -> number -> string.

(** Each failure path sets its message. *)
Lemma failure_sets_its_message ev st msg :
  Paths.failure numberToString decode ev st msg ->
  In (SetError (Some msg))
     (snd (handle numberToString decode toDataURL ev st)).
Proof.
  intros F. destruct F; unfold handle; cbv iota beta.
  - rewrite AdminFacts.handleImageChange_wrong_type by assumption.
    left. reflexivity.
  - rewrite AdminFacts.handleImageChange_too_large by assumption.
    left. reflexivity.
  - rewrite AdminFacts.handleImageChange_undecodable by assumption.
    right. left. reflexivity.
  - unfold handleSubmit. rewrite AdminMore.required_cond.
    unfold Paths.requiredFilled in H. rewrite H. left. reflexivity.
  - unfold handleSubmit. rewrite AdminMore.required_cond.
    unfold Paths.requiredFilled in H. rewrite H, H0. left. reflexivity.
  - unfold handleSubmit. rewrite AdminMore.required_cond.
    unfold Paths.requiredFilled in H. rewrite H, H0.
    destruct (image (formData st)) as [img|]; [|discriminate H0].
    cbn [negb send_price]. rewrite (AdminFacts.price_check _ H1).
    left. reflexivity.
  - unfold handleSubmit. rewrite AdminMore.required_cond.
    unfold Paths.requiredFilled in H. rewrite H, H0.
    destruct (image (formData st)) as [img|]; [|discriminate H0].
    cbn [negb send_price send_stock].
    destruct (AdminMore.price_passes _ H1) as [_ Cp].
    rewrite Cp, AdminMore.stock_check_eq, H2. left. reflexivity.
  - unfold handleSubmit. rewrite AdminMore.required_cond.
    unfold Paths.requiredFilled in H. rewrite H, H0.
    destruct (image (formData st)) as [img|]; [|discriminate H0].
    cbn [negb send_price send_stock].
    destruct (AdminMore.price_passes _ H1) as [_ Cp].
    rewrite Cp, AdminMore.stock_check_eq, H2.
    destruct (editingProduct st); right; left; reflexivity.
  - right. left. reflexivity.
  - right. left. reflexivity.
Qed.

(** C7, amended.  Every failure path sets its error message, and exactly
    one: a picked file of the wrong type, too large, or that does not
    decode; a submission with a required field missing, without image
    data, with a price read by [parseFloat] as NaN or as a Number that is
    not positive, with a stock read by [parseInt] as a negative Number, or
    whose request fails; a refresh or a confirmed delete that fails.  On
    each of them the products, the form (with the image it holds), the
    product being edited and the dialog are as before, the message is the
    one displayed, at most one request was made, and after the message the
    handler only writes to the console: nothing is tried again. *)
Theorem C7_failure_paths_set_one_error_and_keep_state ev st msg :
  Paths.failure numberToString decode ev st msg ->
  let r := handle numberToString decode toDataURL ev st in
  In (SetError (Some msg)) (snd r) /\
  products (fst r) = products st /\
  formData (fst r) = formData st /\
  editingProduct (fst r) = editingProduct st /\
  openDialog (fst r) = openDialog st /\
  error (fst r) = Some msg /\
  filter isSetError (snd r) = [SetError (Some msg)] /\
  (List.length (filter isRequest (snd r)) <= 1)%nat /\
  exists pre post,
    snd r = (pre ++ SetError (Some msg) :: post)%list /\
    forall e, In e post -> exists label, e = ConsoleError label.
Proof.
  intros F r.
  pose proof (failure_sets_its_message ev st msg F) as Hin.
  split; [exact Hin|].
  exact (error_message_keeps_state numberToString decode toDataURL ev st msg Hin).
Qed.

End FailurePaths.

Lemma C7_witness :
  Paths.failure Sample.numberToString Sample.decode
    (FilePicked (Some Sample.broken))
    (Sample.withForm (Sample.shirtForm "19.99" "5"))
    "Error processing the image" /\
  error (fst (handle Sample.numberToString Sample.decode Sample.toDataURL
                (FilePicked (Some Sample.broken))
                (Sample.withForm (Sample.shirtForm "19.99" "5"))))
  = Some "Error processing the image" /\
  Paths.failure Sample.numberToString Sample.decode
    (Submitted false)
    (Sample.withForm (Sample.shirtForm "19.99" "5"))
    "Failed to save product" /\
  formData (fst (handle Sample.numberToString Sample.decode Sample.toDataURL
                   (Submitted false)
                   (Sample.withForm (Sample.shirtForm "19.99" "5"))))
  = Sample.shirtForm "19.99" "5".
Proof.
  assert (F1 : Paths.failure Sample.numberToString Sample.decode
                 (FilePicked (Some Sample.broken))
                 (Sample.withForm (Sample.shirtForm "19.99" "5"))
                 "Error processing the image").
  { apply Paths.DecodeFailure;
      [reflexivity|vm_compute; discriminate|reflexivity]. }
  assert (F2 : Paths.failure Sample.numberToString Sample.decode
                 (Submitted false)
                 (Sample.withForm (Sample.shirtForm "19.99" "5"))
                 "Failed to save product").
  { apply Paths.SaveFailed; vm_compute; reflexivity. }
  split; [exact F1|]. split.
  - exact (proj1 (proj2 (proj2 (proj2 (proj2 (proj2
             (C7_failure_paths_set_one_error_and_keep_state
                Sample.numberToString Sample.decode Sample.toDataURL
                _ _ _ F1))))))).
  - split; [exact F2|].
    exact (proj1 (proj2 (proj2
             (C7_failure_paths_set_one_error_and_keep_state
                Sample.numberToString Sample.decode Sample.toDataURL
                _ _ _ F2)))).
Defined.
